(** * A shallow embedding of python-amazon-mws: the core client [mws/mws.py]
    and the namespace stripper of [mws/utils/xml.py].

    Python strings are [string]s whose characters are code points below 256;
    Python dicts are association lists kept in insertion order; raised
    exceptions are the left side of a [sum]; what a call sends over the
    network is recorded next to what it returns. *)

From Stdlib Require Import Bool ZArith Arith Lia List Ascii String Strings.Byte.
From Stdlib Require Import Sorted Permutation.
From Stdlib Require Import Numbers.DecimalString.
Import ListNotations.

Open Scope list_scope.
Open Scope string_scope.
#[local] Set Warnings "-register-all".

(* ------------------------------------------------------------------ *)
(** ** Python values, dicts and exceptions *)

(** The values that reach request parameters (dates and datetimes are
    left out of this model). *)
Inductive PyVal : Type :=
| VNone
| VBool (b : bool)
| VInt (z : Z)
| VStr (s : string)
| VList (xs : list PyVal)
| VDict (kvs : list (string * PyVal)).

(** A Python dict with string keys, in insertion order. *)
Definition dict (V : Type) := list (string * V).

Fixpoint dict_get {V} (d : dict V) (k : string) : option V :=
  match d with
  | [] => None
  | (k', v) :: r => if String.eqb k k' then Some v else dict_get r k
  end.

(** [d[k] = v]: an existing key keeps its place, a new key goes last. *)
Fixpoint dict_set {V} (d : dict V) (k : string) (v : V) : dict V :=
  match d with
  | [] => [(k, v)]
  | (k', v') :: r =>
      if String.eqb k k' then (k', v) :: r else (k', v') :: dict_set r k v
  end.

(** [d.update(other)] *)
Definition dict_update {V} (d other : dict V) : dict V :=
  fold_left (fun acc kv => dict_set acc (fst kv) (snd kv)) other d.

(** A dict display [{k1: v1, k2: v2, ...}]: a later duplicate key wins. *)
Definition dict_of_list {V} (l : list (string * V)) : dict V := dict_update [] l.

Definition dict_keys {V} (d : dict V) : list string := map fst d.

(** An HTTP response of [requests]. *)
Record HttpResponse := {
  status_code : Z;
  content : list byte;
  text : string;
  resp_headers : dict string
}.

(** The exceptions that the modelled code raises or catches. *)
Inductive exn : Type :=
| MWSError (msg : string) (response : option HttpResponse)
| ValueError (msg : string)
| TypeError (msg : string)
| XMLError (msg : string)
| HTTPError (response : HttpResponse).

Definition is_MWSError (e : exn) : bool :=
  match e with MWSError _ _ => true | _ => false end.

(** Python truthiness of a string. *)
Definition truthy (s : string) : bool := negb (String.eqb s EmptyString).

(* ------------------------------------------------------------------ *)
(** ** The marketplace registry ([class Marketplaces(Enum)]) *)

(** The member definitions, in source order: name, (endpoint, marketplace id). *)
Definition Marketplaces_defs : list (string * (string * string)) := [
  ("AE", ("https://mws.amazonservices.ae", "A2VIGQ35RCS4UG"));
  ("AU", ("https://mws.amazonservices.com.au", "A39IBJ37TRP1C6"));
  ("BR", ("https://mws.amazonservices.com", "A2Q3Y263D00KWC"));
  ("CA", ("https://mws.amazonservices.ca", "A2EUQ1WTGCTBG2"));
  ("DE", ("https://mws-eu.amazonservices.com", "A1PA6795UKMFR9"));
  ("EG", ("https://mws-eu.amazonservices.com", "ARBP9OOSHTCHU"));
  ("ES", ("https://mws-eu.amazonservices.com", "A1RKKUPIHCS9HS"));
  ("FR", ("https://mws-eu.amazonservices.com", "A13V1IB3VIYZZH"));
  ("GB", ("https://mws-eu.amazonservices.com", "A1F83G8C2ARO7P"));
  ("IN", ("https://mws.amazonservices.in", "A21TJRUUN4KGV"));
  ("IT", ("https://mws-eu.amazonservices.com", "APJ6JRA9NG5V4"));
  ("JP", ("https://mws.amazonservices.jp", "A1VC38T7YXB528"));
  ("MX", ("https://mws.amazonservices.com.mx", "A1AM78C64UM0Y8"));
  ("NL", ("https://mws-eu.amazonservices.com", "A1805IZSGTT6HS"));
  ("SA", ("https://mws-eu.amazonservices.com", "A17E79C6D8DWNP"));
  ("SG", ("https://mws-fe.amazonservices.com", "A19VAU5U5O7RUS"));
  ("TR", ("https://mws-eu.amazonservices.com", "A33AVAJ2PDY3EV"));
  ("UK", ("https://mws-eu.amazonservices.com", "A1F83G8C2ARO7P"));
  ("US", ("https://mws.amazonservices.com", "ATVPDKIKX0DER"))
].

Definition value_eqb (a b : string * string) : bool :=
  String.eqb (fst a) (fst b) && String.eqb (snd a) (snd b).

(** [Marketplaces.__members__]: every name, aliases included, in definition
    order; an alias (a later name with an equal value) maps to the first
    member with that value. *)
Definition Marketplaces_members : list string := map fst Marketplaces_defs.

(** [Marketplaces[name]]: the canonical member of [name], as (name, value). *)
Definition Marketplaces_getitem (name : string) : option (string * (string * string)) :=
  match dict_get Marketplaces_defs name with
  | None => None
  | Some v => find (fun m => value_eqb (snd m) v) Marketplaces_defs
  end.

Definition endpoint (m : string * (string * string)) : string := fst (snd m).
Definition marketplace_id (m : string * (string * string)) : string := snd (snd m).

(* ------------------------------------------------------------------ *)
(** ** The client ([class MWS]) *)

(** The class-level constants a subclass overrides. *)
Record MWSClass := {
  URI : string;
  VERSION : string;
  NAMESPACE : string;
  NEXT_TOKEN_OPERATIONS : list string;
  ACCOUNT_TYPE : string
}.

Definition MWS_base : MWSClass := {|
  URI := "/";
  VERSION := "2009-01-01";
  NAMESPACE := EmptyString;
  NEXT_TOKEN_OPERATIONS := [];
  ACCOUNT_TYPE := "SellerId"
|}.

(** The instance attributes set by [__init__]. *)
Record MWS := {
  access_key : string;
  secret_key : string;
  account_id : string;
  auth_token : string;
  version : string;
  uri : string;
  proxy : option string;
  _test_request_params : bool;
  domain : string
}.

Definition region_error_msg (region : string) : string :=
  "Incorrect region supplied: " ++ region ++ ". "
  ++ "Must be one of the following: " ++ String.concat ", " Marketplaces_members.

(** [MWS.__init__] *)
Definition MWS_init (cls : MWSClass) (access_key secret_key account_id region
    uri version auth_token : string) (proxy : option string) : sum exn MWS :=
  if existsb (String.eqb region) Marketplaces_members then
    match Marketplaces_getitem region with
    | Some m =>
        inr {| access_key := access_key; secret_key := secret_key;
               account_id := account_id; auth_token := auth_token;
               version := if truthy version then version else VERSION cls;
               uri := if truthy uri then uri else URI cls;
               proxy := proxy; _test_request_params := false;
               domain := endpoint m |}
    | None => inl (MWSError (region_error_msg region) None)
    end
  else inl (MWSError (region_error_msg region) None).

(** [MWS.get_default_params]; [utc_timestamp] is the value [utc_timestamp()]
    returns at the call. *)
Definition get_default_params (cls : MWSClass) (self : MWS) (utc_timestamp : string)
    (action : string) : dict PyVal :=
  let params := dict_of_list [
    ("Action", VStr action);
    ("AWSAccessKeyId", VStr (access_key self));
    (ACCOUNT_TYPE cls, VStr (account_id self));
    ("SignatureVersion", VStr "2");
    ("Timestamp", VStr utc_timestamp);
    ("Version", VStr (version self));
    ("SignatureMethod", VStr "HmacSHA256")] in
  if truthy (auth_token self) then dict_set params "MWSAuthToken" (VStr (auth_token self))
  else params.

(* ------------------------------------------------------------------ *)
(** ** Python string operations *)

Definition chr (n : nat) : ascii := ascii_of_nat n.
Definition ord (c : ascii) : nat := nat_of_ascii c.

Definition newline : string := String (chr 10) EmptyString.

(** [str.lower()] on code points below 256: ASCII and Latin-1 capitals. *)
Definition lower_char (c : ascii) : ascii :=
  let n := ord c in
  if (((65 <=? n) && (n <=? 90)) || ((192 <=? n) && (n <=? 222) && negb (n =? 215)))%nat
  then chr (n + 32) else c.

Fixpoint lower (s : string) : string :=
  match s with
  | EmptyString => EmptyString
  | String c s' => String (lower_char c) (lower s')
  end.

(** [str.replace(old, new)] for a non-empty [old]: scan left to right and
    replace every non-overlapping occurrence; [skip] counts the characters of
    the occurrence just replaced that are still to be dropped. *)
Fixpoint replace_aux (old new : string) (skip : nat) (s : string) : string :=
  match s with
  | EmptyString => EmptyString
  | String c s' =>
      match skip with
      | S k => replace_aux old new k s'
      | O =>
          if String.prefix old s
          then new ++ replace_aux old new (String.length old - 1) s'
          else String c (replace_aux old new 0 s')
      end
  end.

(** [str.replace] with an empty [old] puts [new] at every position. *)
Fixpoint interleave (new s : string) : string :=
  match s with
  | EmptyString => new
  | String c s' => new ++ String c (interleave new s')
  end.

Definition py_replace (s old new : string) : string :=
  match old with
  | EmptyString => interleave new s
  | _ => replace_aux old new 0 s
  end.

Definition byte_of_nat (n : nat) : byte :=
  match Byte.of_nat n with Some b => b | None => x00 end.

(** [str.encode()] (UTF-8) of a code point below 256. *)
Definition utf8_char (c : ascii) : list byte :=
  let n := ord c in
  if (n <? 128)%nat then [byte_of_nat n]
  else [byte_of_nat (192 + n / 64); byte_of_nat (128 + n mod 64)].

Fixpoint encode (s : string) : list byte :=
  match s with
  | EmptyString => []
  | String c s' => utf8_char c ++ encode s'
  end.

(** [str(i)] of an int. *)
Definition int_str (z : Z) : string := NilEmpty.string_of_int (Z.to_int z).

Definition hex_digit (n : nat) : ascii :=
  if (n <? 10)%nat then chr (48 + n) else chr (55 + n).

(** Python's [isprintable()] on a code point below 256. *)
Definition printable (n : nat) : bool :=
  (((32 <=? n) && (n <=? 126)) || ((161 <=? n) && negb (n =? 173)))%nat.

Definition dq : ascii := chr 34.
Definition sq : ascii := chr 39.
Definition bs : ascii := chr 92.

(** [repr(s)] of a str: single quotes unless the text has a single quote and
    no double quote. *)
Definition str_repr (s : string) : string :=
  let has c := existsb (fun d => Ascii.eqb d c) (list_ascii_of_string s) in
  let q := if has sq && negb (has dq) then dq else sq in
  let fix esc (t : string) : string :=
    match t with
    | EmptyString => EmptyString
    | String c t' =>
        let n := ord c in
        let e :=
          if Ascii.eqb c q || Ascii.eqb c bs then String bs (String c EmptyString)
          else if (n =? 10)%nat then String bs "n"
          else if (n =? 13)%nat then String bs "r"
          else if (n =? 9)%nat then String bs "t"
          else if printable n then String c EmptyString
          else String bs (String "x"%char
                 (String (lower_char (hex_digit (n / 16)))
                   (String (lower_char (hex_digit (n mod 16))) EmptyString))) in
        e ++ esc t'
    end in
  String q (esc s ++ String q EmptyString).

(** [str(v)] and [repr(v)] *)
Fixpoint py_repr (v : PyVal) : string :=
  match v with
  | VNone => "None"
  | VBool true => "True"
  | VBool false => "False"
  | VInt z => int_str z
  | VStr s => str_repr s
  | VList xs => "[" ++ String.concat ", " (map py_repr xs) ++ "]"
  | VDict kvs =>
      "{" ++ String.concat ", "
        (map (fun kv => str_repr (fst kv) ++ ": " ++ py_repr (snd kv)) kvs) ++ "}"
  end.

Definition py_str (v : PyVal) : string :=
  match v with
  | VStr s => s
  | _ => py_repr v
  end.

(** Python's [sorted] on strings: code point order, here [String.leb]. *)
Fixpoint insert_sorted (x : string) (l : list string) : list string :=
  match l with
  | [] => [x]
  | y :: r => if String.leb x y then x :: y :: r else y :: insert_sorted x r
  end.

Fixpoint sorted (l : list string) : list string :=
  match l with
  | [] => []
  | x :: r => insert_sorted x (sorted r)
  end.

(* ------------------------------------------------------------------ *)
(** ** [calc_request_description] *)

(** ["{}={}".format(item, params[item])]; [item] comes from
    [params.keys()], so the lookup always succeeds. *)
Definition description_item (params : dict PyVal) (item : string) : string :=
  match dict_get params item with
  | Some encoded_val => item ++ "=" ++ py_str encoded_val
  | None => EmptyString
  end.

Definition calc_request_description (params : dict PyVal) : string :=
  String.concat "&" (map (description_item params) (sorted (dict_keys params))).

(* ------------------------------------------------------------------ *)
(** ** [MWS.calc_signature] *)

Section Signature.
(** [hmac.new(key, msg, hashlib.sha256).digest()] and [base64.b64encode]. *)
Variable hmac_sha256 : list byte -> list byte -> list byte.
Variable b64encode : list byte -> list byte.

Definition calc_signature (self : MWS) (method request_description : string) : list byte :=
  let sig_data := String.concat newline
    [method; lower (py_replace (domain self) "https://" EmptyString); uri self; request_description] in
  b64encode (hmac_sha256 (encode (secret_key self)) (encode sig_data)).

(** Signature Version 2 as the spec words it: the host is the domain with its
    scheme prefix stripped, lower-cased. *)
Definition strip_scheme (d : string) : string :=
  if String.prefix "https://" d then substring 8 (String.length d - 8) d else d.

Definition signature_v2 (secret method domain path description : string) : list byte :=
  b64encode (hmac_sha256 (encode secret)
    (encode (method ++ newline ++ lower (strip_scheme domain) ++ newline
             ++ path ++ newline ++ description))).
End Signature.

(* ------------------------------------------------------------------ *)
(** ** Parameter cleaning *)

(** [urllib.parse.quote] on bytes: letters, digits, [_.-~] and the [safe]
    characters stay, every other byte becomes [%XX]. *)
Definition quote_byte (safe : string) (b : byte) : string :=
  let n := Byte.to_nat b in
  let c := chr n in
  if (((48 <=? n) && (n <=? 57)) || ((65 <=? n) && (n <=? 90))
      || ((97 <=? n) && (n <=? 122)))%nat
     || existsb (Ascii.eqb c) (list_ascii_of_string ("_.-~" ++ safe))
  then String c EmptyString
  else String "%"%char (String (hex_digit (n / 16)) (String (hex_digit (n mod 16)) EmptyString)).

Definition quote_bytes (safe : string) (bs : list byte) : string :=
  String.concat EmptyString (map (quote_byte safe) bs).

(** [quote(s, safe)] of a str: its UTF-8 bytes, quoted. *)
Definition quote (safe s : string) : string := quote_bytes safe (encode s).

Definition type_name (v : PyVal) : string :=
  match v with
  | VNone => "NoneType" | VBool _ => "bool" | VInt _ => "int" | VStr _ => "str"
  | VList _ => "list" | VDict _ => "dict"
  end.

(** Modelled from the spec: [mws.utils.parameters.clean_param_value], which
    is not among the sources. Composite values fail with a [ValueError]
    naming the type and the value; booleans become [true]/[false]; other
    scalars their [str()]; the result is percent-encoded with [-_.~] safe. *)
Definition clean_param_value (val : PyVal) : sum exn string :=
  match val with
  | VList _ | VDict _ =>
      inl (ValueError ("Cannot clean parameter value of type " ++ type_name val
                       ++ ": " ++ py_repr val))
  | VBool b => inr (quote "-_.~" (if b then "true" else "false"))
  | _ => inr (quote "-_.~" (py_str val))
  end.

(** [v is not None and v != the empty str] *)
Definition keep_param (v : PyVal) : bool :=
  match v with
  | VNone => false
  | VStr s => truthy s
  | _ => true
  end.

Section CleanParams.
(** The scalar cleaner [clean_params] calls. *)
Variable clean_value : PyVal -> sum exn string.

Fixpoint clean_loop (params cleaned_params : dict PyVal) : sum exn (dict PyVal) :=
  match params with
  | [] => inr cleaned_params
  | (key, val) :: r =>
      match clean_value val with
      | inr c => clean_loop r (dict_set cleaned_params key (VStr c))
      | inl (ValueError m) => inl (MWSError m None)
      | inl e => inl e
      end
  end.

(** [clean_params] *)
Definition clean_params (params : dict PyVal) : sum exn (dict PyVal) :=
  let params := filter (fun kv => keep_param (snd kv)) params in
  clean_loop params [].
End CleanParams.

(** Modelled from the spec: [RequestParameter(value=...).to_dict()], which is
    not among the sources. A mapping under key K gives K.M for each member M,
    a sequence under K gives K.1, K.2, ..., a scalar under K gives K itself;
    at the root (no key) each entry is its own top-level key. *)
Definition join_key (key m : string) : string :=
  if truthy key then key ++ "." ++ m else m.

Fixpoint flatten (key : string) (v : PyVal) : list (string * PyVal) :=
  match v with
  | VDict kvs =>
      (fix go (kvs : list (string * PyVal)) :=
         match kvs with
         | [] => []
         | (m, x) :: r => app (flatten (join_key key m) x) (go r)
         end) kvs
  | VList xs =>
      (fix go (i : nat) (xs : list PyVal) :=
         match xs with
         | [] => []
         | x :: r => app (flatten (join_key key (int_str (Z.of_nat i))) x) (go (S i) r)
         end) 1%nat xs
  | _ => [(key, v)]
  end.

Definition RequestParameter_to_dict (value : PyVal) : dict PyVal :=
  dict_of_list (flatten EmptyString value).

(* ------------------------------------------------------------------ *)
(** ** Requests and responses *)

Definition __version__ : string := "1.0.0dev14".

(** The arguments of [requests.request]. *)
Record HttpRequest := {
  req_method : string;
  req_url : string;
  req_data : string;
  req_headers : dict string;
  req_proxies : dict (option string);
  req_timeout : Z
}.

(** What a call sends over the network (at most one request), and what it
    returns or raises. *)
Record Outcome (A : Type) := { sent : option HttpRequest; ret : sum exn A }.
Arguments sent {A}.
Arguments ret {A}.

Definition raise {A} (e : exn) : Outcome A := {| sent := None; ret := inl e |}.

(** The keyword arguments [make_request] reads from [**kwargs]. *)
Record Kwargs := {
  extra_headers : option (dict string);
  body : option string;
  timeout : option Z;
  result_key : option string
}.

Definition no_kwargs : Kwargs :=
  {| extra_headers := None; body := None; timeout := None; result_key := None |}.

Definition get_or {A} (o : option A) (d : A) : A :=
  match o with Some a => a | None => d end.

(** The body handed to [DictWrapper]: [response.content] or [response.text]. *)
Inductive Body := BBytes (b : list byte) | BText (s : string).

(** [MWS.get_proxies] *)
Definition get_proxies (self : MWS) : dict (option string) :=
  match proxy self with
  | Some p =>
      if truthy p then [("http", Some ("http://" ++ p)); ("https", Some ("https://" ++ p))]
      else [("http", None); ("https", None)]
  | None => [("http", None); ("https", None)]
  end.

(** [response.raise_for_status()] *)
Definition raise_for_status (r : HttpResponse) : sum exn unit :=
  if ((400 <=? status_code r) && (status_code r <? 600))%Z then inl (HTTPError r) else inr tt.

(** [x + "Result"] where [x = extra_data.get("Action")]. *)
Definition add_Result (x : option PyVal) : sum exn string :=
  match x with
  | Some (VStr s) => inr (s ++ "Result")
  | Some (VList _) =>
      inl (TypeError ("can only concatenate list (not " ++ String dq "str" ++ String dq ") to list"))
  | Some v =>
      inl (TypeError ("unsupported operand type(s) for +: '" ++ type_name v ++ "' and 'str'"))
  | None =>
      inl (TypeError "unsupported operand type(s) for +: 'NoneType' and 'str'")
  end.

(** What [make_request] returns: the cleaned parameters (test mode) or the
    parsed response with [.response] attached. *)
Inductive MRResult (Parsed : Type) :=
| RParams (params : dict PyVal)
| RParsed (parsed : Parsed) (response : HttpResponse).
Arguments RParams {Parsed}.
Arguments RParsed {Parsed}.

Section Client.
(** [utc_timestamp()] at the call. *)
Variable utc_timestamp : string.
Variable hmac_sha256 : list byte -> list byte -> list byte.
Variable b64encode : list byte -> list byte.
(** [requests.request]: the response the network gives to a request. *)
Variable request : HttpRequest -> HttpResponse.
(** [DictWrapper(data, result_key)] and [DataWrapper(data, headers)] of
    [mws.utils.parsers], with their result type. *)
Variable Parsed : Type.
Variable DictWrapper : Body -> string -> sum exn Parsed.
Variable DataWrapper : list byte -> dict string -> sum exn Parsed.

(** [except HTTPError as exc: raise MWSError(str(exc.response.text))] with
    the response attached. *)
Definition catch_HTTPError {A} (r : sum exn A) : sum exn A :=
  match r with
  | inl (HTTPError resp) => inl (MWSError (text resp) (Some resp))
  | _ => r
  end.

(** The parsing steps after a successful response, inside the
    [try ... except XMLError] of [make_request]. *)
Definition parse_response (response : HttpResponse) (data : list byte)
    (result_key : string) : sum exn Parsed :=
  match DictWrapper (BBytes data) result_key with
  | inr p => inr p
  | inl (TypeError _) =>
      match DictWrapper (BText (text response)) result_key with
      | inr p => inr p
      | inl (XMLError _) => DataWrapper data (resp_headers response)
      | inl e => inl e
      end
  | inl (XMLError _) => DataWrapper data (resp_headers response)
  | inl e => inl e
  end.

(** [MWS.make_request] *)
Definition make_request (cls : MWSClass) (self : MWS) (action : string)
    (extra_data : dict PyVal) (method : string) (kwargs : Kwargs)
    : Outcome (MRResult Parsed) :=
  let params := get_default_params cls self utc_timestamp action in
  let proxies := get_proxies self in
  let params := dict_update params extra_data in
  match clean_params clean_param_value params with
  | inl e => raise e
  | inr params =>
      if _test_request_params self then {| sent := None; ret := inr (RParams params) |}
      else
        let request_description := calc_request_description params in
        let signature := calc_signature hmac_sha256 b64encode self method request_description in
        let url := domain self ++ uri self ++ "?" ++ request_description
                   ++ "&Signature=" ++ quote_bytes "/" signature in
        let headers := dict_update
          [("User-Agent", "python-amazon-mws/" ++ __version__ ++ " (Language=Python)")]
          (get_or (extra_headers kwargs) []) in
        let req := {| req_method := method; req_url := url;
                      req_data := get_or (body kwargs) EmptyString;
                      req_headers := headers; req_proxies := proxies;
                      req_timeout := get_or (timeout kwargs) 300%Z |} in
        let response := request req in
        {| sent := Some req;
           ret := catch_HTTPError
             match raise_for_status response with
             | inl e => inl e
             | inr _ =>
                 let data := content response in
                 (* the default of [kwargs.get] is evaluated first *)
                 match add_Result (dict_get extra_data "Action") with
                 | inl e => inl e
                 | inr default_key =>
                     let result_key := get_or (result_key kwargs) default_key in
                     match parse_response response data result_key with
                     | inr p => inr (RParsed p response)
                     | inl e => inl e
                     end
                 end
             end |}
  end.

(** Python's binding of a call [self.make_request(...)]: [action] and
    [extra_data] are required, [method] defaults to ["GET"]. *)
Definition make_request_call (cls : MWSClass) (self : MWS) (action : option string)
    (extra_data : option (dict PyVal)) (method : option string) (kwargs : Kwargs)
    : Outcome (MRResult Parsed) :=
  match action, extra_data with
  | Some a, Some d => make_request cls self a d (get_or method "GET") kwargs
  | None, Some _ =>
      raise (TypeError "MWS.make_request() missing 1 required positional argument: 'action'")
  | Some _, None =>
      raise (TypeError "MWS.make_request() missing 1 required positional argument: 'extra_data'")
  | None, None =>
      raise (TypeError ("MWS.make_request() missing 2 required positional arguments: "
                        ++ "'action' and 'extra_data'"))
  end.

(** [MWS.get_service_status]: [self.make_request(extra_data=dict(Action="GetServiceStatus"))] *)
Definition get_service_status (cls : MWSClass) (self : MWS) : Outcome (MRResult Parsed) :=
  make_request_call cls self None (Some [("Action", VStr "GetServiceStatus")]) None no_kwargs.

Definition next_token_error_msg (action : string) : string :=
  action ++ " action not listed in this API's NEXT_TOKEN_OPERATIONS. "
  ++ "Please refer to documentation.".

(** [MWS.action_by_next_token] *)
Definition action_by_next_token (cls : MWSClass) (self : MWS) (action : string)
    (next_token : PyVal) : Outcome (MRResult Parsed) :=
  if negb (existsb (String.eqb action) (NEXT_TOKEN_OPERATIONS cls)) then
    raise (MWSError (next_token_error_msg action) None)
  else
    let action := action ++ "ByNextToken" in
    make_request cls self action [("NextToken", next_token)] "POST" no_kwargs.

Definition generic_uri_error_msg (u : string) : string :=
  "Cannot send generic request to URI '" ++ u ++ "'. "
  ++ "Please use one of the API classes "
  ++ "(`mws.apis.Reports`, `mws.apis.Feeds`, etc.) "
  ++ "to initiate this request.".

(** [MWS.generic_request]; [parameters] defaults to [None]. *)
Definition generic_request (cls : MWSClass) (self : MWS) (action : string)
    (parameters : PyVal) (method : string) (kwargs : Kwargs)
    : Outcome (MRResult Parsed) :=
  if negb (truthy (uri self)) || String.eqb (uri self) "/" then
    raise (ValueError (generic_uri_error_msg (uri self)))
  else
    match parameters with
    | VDict _ =>
        let data := RequestParameter_to_dict parameters in
        make_request cls self action data method kwargs
    | _ => raise (ValueError "`parameters` must be a dict.")
    end.
End Client.

(* ------------------------------------------------------------------ *)
(** ** [re.sub] and [mws.utils.xml.remove_xml_namespaces] *)

Fixpoint str_drop (n : nat) (s : string) : string :=
  match n, s with
  | O, _ => s
  | S _, EmptyString => EmptyString
  | S n', String _ s' => str_drop n' s'
  end.

(** The regular expressions the source uses: literals, alternation,
    concatenation, [?], groups and a character class under [+]. *)
Inductive regex :=
| RLit (l : string)
| RAlt (r1 r2 : regex)
| RSeq (r1 r2 : regex)
| ROpt (r : regex)
| RGroup (r : regex)
| RPlusClass (cls : ascii -> bool).

(** Greedy [cls+] with backtracking: take as many characters as possible,
    then give them back one at a time until the rest of the pattern [k]
    matches. *)
Fixpoint plus_class (cls : ascii -> bool) (s : string) (k : string -> option string)
    : option string :=
  match s with
  | EmptyString => None
  | String c s' =>
      if cls c then
        match plus_class cls s' k with
        | Some r => Some r
        | None => k s'
        end
      else None
  end.

(** A backtracking matcher with Python's priorities (left alternative first,
    greedy [?] and [+]); [k] matches the rest of the pattern and returns the
    unmatched remainder of the text. *)
Fixpoint rmatch (r : regex) (s : string) (k : string -> option string) : option string :=
  match r with
  | RLit l => if String.prefix l s then k (str_drop (String.length l) s) else None
  | RAlt r1 r2 =>
      match rmatch r1 s k with
      | Some x => Some x
      | None => rmatch r2 s k
      end
  | RSeq r1 r2 => rmatch r1 s (fun s' => rmatch r2 s' k)
  | ROpt r1 =>
      match rmatch r1 s k with
      | Some x => Some x
      | None => k s
      end
  | RGroup r1 => rmatch r1 s k
  | RPlusClass cls => plus_class cls s k
  end.

(** [pattern.match(s)]: the remainder after the match at the start of [s]. *)
Definition match_at (r : regex) (s : string) : option string := rmatch r s (fun rest => Some rest).

(** [pattern.sub(repl, s)]: left to right, each match replaced, the scan
    resuming after it; after an empty match one character is copied. [fuel]
    bounds the number of steps, one per character at least. *)
Fixpoint sub_aux (r : regex) (repl : string) (fuel : nat) (s : string) : string :=
  match fuel with
  | O => s
  | S f =>
      let copy_one :=
        match s with
        | EmptyString => EmptyString
        | String c s' => String c (sub_aux r repl f s')
        end in
      match match_at r s with
      | Some rest =>
          if (String.length rest <? String.length s)%nat
          then repl ++ sub_aux r repl f rest
          else repl ++ copy_one
      | None => copy_one
      end
  end.

Definition re_sub (r : regex) (repl s : string) : string :=
  sub_aux r repl (S (String.length s)) s.

Definition not_dq (c : ascii) : bool := negb (Ascii.eqb c dq).

(** [re.compile(r'xmlns(:ns2)?=Q[^Q]+Q|(ns2:)|(xml:)')], where Q stands for
    the double-quote character. *)
Definition xml_ns_pattern : regex :=
  RAlt
    (RSeq (RLit "xmlns")
      (RSeq (ROpt (RGroup (RLit ":ns2")))
        (RSeq (RLit (String "="%char (String dq EmptyString)))
          (RSeq (RPlusClass not_dq) (RLit (String dq EmptyString))))))
    (RAlt (RGroup (RLit "ns2:")) (RGroup (RLit "xml:"))).

(** [remove_xml_namespaces] *)
Definition remove_xml_namespaces (data : string) : string :=
  re_sub xml_ns_pattern EmptyString data.

(** The deletion the claim describes, stated on its own: at each position,
    an [xmlns=QvQ] or [xmlns:ns2=QvQ] declaration (Q the double quote, [v] a
    non-empty run of characters other than Q) or a literal [ns2:] or [xml:]
    is deleted, and any other character is kept. [skip_value] reads [vQ]. *)
Fixpoint skip_value (first : bool) (t : string) : option string :=
  match t with
  | EmptyString => None
  | String c t' =>
      if Ascii.eqb c dq then (if first then None else Some t') else skip_value false t'
  end.

Definition deleted_token (s : string) : option string :=
  if String.prefix ("xmlns=" ++ String dq EmptyString) s then skip_value true (str_drop 7 s)
  else if String.prefix ("xmlns:ns2=" ++ String dq EmptyString) s then skip_value true (str_drop 11 s)
  else if String.prefix "ns2:" s then Some (str_drop 4 s)
  else if String.prefix "xml:" s then Some (str_drop 4 s)
  else None.

Inductive Stripped : string -> string -> Prop :=
| stripped_nil : Stripped EmptyString EmptyString
| stripped_token : forall s rest out,
    deleted_token s = Some rest -> Stripped rest out -> Stripped s out
| stripped_keep : forall c s out,
    deleted_token (String c s) = None -> Stripped s out -> Stripped (String c s) (String c out).

(** Helpers of the proofs: the closing quote of the pattern (the
    continuation of [[^Q]+]) and the text [=Q]. *)
Definition close_quote (v : string) : option string :=
  rmatch (RLit (String dq EmptyString)) v (fun rest => Some rest).

Definition eq_quote : string := String "="%char (String dq EmptyString).

(** The parameter names [get_default_params] writes, apart from the
    account-type field. *)
Definition core_param_names : list string :=
  ["Action"; "AWSAccessKeyId"; "SignatureVersion"; "Timestamp"; "Version";
   "SignatureMethod"; "MWSAuthToken"].

(** An entry of the input of [clean_params] and its entry in the cleaned
    dict, for a scalar cleaner [clean_value]. *)
Definition cleaned_entry (clean_value : PyVal -> sum exn string)
    (kv : string * PyVal) (kc : string * PyVal) : Prop :=
  fst kc = fst kv /\ exists c, clean_value (snd kv) = inr c /\ snd kc = VStr c.

(** A sample API class with next-token operations, a client of it, and a
    network and parsers that answer every request with status 200, the
    dict parser returning the result key it is given. *)
Definition sample_api : MWSClass := {|
  URI := "/Orders/2013-09-01";
  VERSION := "2013-09-01";
  NAMESPACE := EmptyString;
  NEXT_TOKEN_OPERATIONS := ["ListOrders"; "ListOrderItems"];
  ACCOUNT_TYPE := "SellerId"
|}.

Definition sample_client : MWS := {|
  access_key := "key"; secret_key := "secret"; account_id := "seller";
  auth_token := EmptyString; version := "2013-09-01"; uri := "/Orders/2013-09-01";
  proxy := None; _test_request_params := false;
  domain := "https://mws.amazonservices.com"
|}.

Definition sample_response : HttpResponse := {|
  status_code := 200; content := []; text := "<ok/>"; resp_headers := []
|}.

Definition sample_request (_ : HttpRequest) : HttpResponse := sample_response.

Definition sample_DictWrapper (_ : Body) (result_key : string) : sum exn string :=
  inr result_key.

Definition sample_DataWrapper (_ : list byte) (_ : dict string) : sum exn string :=
  inr EmptyString.

(* ------------------------------------------------------------------ *)
(** ** [mws.utils.xml]: from response text to dicts *)

(** [MWS_ENCODING] *)
Definition MWS_ENCODING : string := "iso-8859-1".

(** The exceptions of the XML helpers: the parser's error, and the
    [IndexError] and [AttributeError] the helpers themselves can raise. *)
Inductive xml_exn : Type :=
| ExpatError (msg : string)
| IndexError (msg : string)
| AttributeError (msg : string).

(** [v.get(key, default)] *)
Definition py_get (v : PyVal) (key : string) (default : PyVal) : sum xml_exn PyVal :=
  match v with
  | VDict kvs => inr (get_or (dict_get kvs key) default)
  | _ => inl (AttributeError ("'" ++ type_name v ++ "' object has no attribute 'get'"))
  end.

Section XmlUtils.
(** [xmltodict.parse(data, encoding=..., process_namespaces=False,
    dict_constructor=dict, force_cdata=...)], of the [xmltodict] package. *)
Variable xmltodict_parse : string -> string -> bool -> sum xml_exn (dict PyVal).
(** [DotDict] of [mws.utils.collections], with its result type. *)
Variable DotDictT : Type.
Variable DotDict : PyVal -> DotDictT.

(** [mws_xml_to_dict] *)
Definition mws_xml_to_dict (data encoding : string) (force_cdata : bool)
    : sum xml_exn PyVal :=
  let data := remove_xml_namespaces data in
  match xmltodict_parse data encoding force_cdata with
  | inl e => inl e
  | inr xmldict =>
      match dict_keys xmldict with
      | [] => inl (IndexError "list index out of range")
      | k :: _ => py_get (VDict xmldict) k (VDict xmldict)
      end
  end.

(** [mws_xml_to_dotdict]; [result_key] defaults to [None]. *)
Definition mws_xml_to_dotdict (data : string) (result_key : option string)
    (force_cdata : bool) : sum xml_exn DotDictT :=
  match mws_xml_to_dict data MWS_ENCODING force_cdata with
  | inl e => inl e
  | inr xmldict =>
      match result_key with
      | Some k =>
          if truthy k then
            match py_get xmldict k xmldict with
            | inl e => inl e
            | inr x => inr (DotDict x)
            end
          else inr (DotDict xmldict)
      | None => inr (DotDict xmldict)
      end
  end.
End XmlUtils.

(* ------------------------------------------------------------------ *)
(** ** Reading a request description back *)

(** [s.split(sep)] for a one-character separator. *)
Fixpoint split_on (sep : ascii) (s : string) : list string :=
  match s with
  | EmptyString => [EmptyString]
  | String c s' =>
      if Ascii.eqb c sep then EmptyString :: split_on sep s'
      else match split_on sep s' with
           | [] => [String c EmptyString]
           | w :: ws => String c w :: ws
           end
  end.

(** [s.partition("=")] without the separator. *)
Fixpoint split_pair (s : string) : string * string :=
  match s with
  | EmptyString => (EmptyString, EmptyString)
  | String c s' =>
      if Ascii.eqb c "="%char then (EmptyString, s')
      else let (k, v) := split_pair s' in (String c k, v)
  end.

(** The [key=value] pairs of a request description, in order. *)
Definition parse_description (d : string) : list (string * string) :=
  if String.eqb d EmptyString then [] else map split_pair (split_on "&"%char d).

(** A text holding neither [&] nor [=]. *)
Definition no_sep (s : string) : Prop :=
  ~ In "&"%char (list_ascii_of_string s) /\ ~ In "="%char (list_ascii_of_string s).

(** [client._test_request_params = flag], as the library's tests set it. *)
Definition set_test_request_params (self : MWS) (flag : bool) : MWS := {|
  access_key := access_key self; secret_key := secret_key self;
  account_id := account_id self; auth_token := auth_token self;
  version := version self; uri := uri self; proxy := proxy self;
  _test_request_params := flag; domain := domain self
|}.

(** A network that answers every request with status 503. *)
Definition sample_error_response : HttpResponse := {|
  status_code := 503; content := []; text := "Service Unavailable"; resp_headers := []
|}.

Definition sample_error_request (_ : HttpRequest) : HttpResponse := sample_error_response.

(* ================================================================== *)
(** * Proofs *)

(* ------------------------------------------------------------------ *)
(** ** The namespace stripper *)

Section StripNamespaces.

Lemma prefix_app (a b s : string) :
  String.prefix (a ++ b) s = String.prefix a s && String.prefix b (str_drop (String.length a) s).
Proof.
  revert s; induction a as [|x a IH]; intros s; [destruct s; reflexivity|].
  destruct s as [|y s]; [reflexivity|].
  simpl; destruct (ascii_dec x y); [apply IH|reflexivity].
Qed.

Lemma prefix_split (a s : string) :
  String.prefix a s = true -> exists r, s = a ++ r.
Proof.
  revert s; induction a as [|x a IH]; intros s H; [exists s; reflexivity|].
  destruct s as [|y s]; [discriminate|].
  simpl in H; destruct (ascii_dec x y) as [->|]; [|discriminate].
  destruct (IH s H) as [r ->]; exists r; reflexivity.
Qed.

Lemma str_drop_length (n : nat) (s : string) :
  String.length (str_drop n s) = (String.length s - n)%nat.
Proof.
  revert s; induction n as [|n IH]; intros [|c s]; simpl; auto.
Qed.

Lemma prefix_length (a s : string) :
  String.prefix a s = true -> (String.length a <= String.length s)%nat.
Proof.
  intros H; destruct (prefix_split a s H) as [r ->].
  induction a as [|x a IH]; simpl; [lia|].
  apply le_n_S, IH.
  simpl in H; destruct (ascii_dec x x); [exact H|congruence].
Qed.

Lemma skip_value_shorter (b : bool) (t r : string) :
  skip_value b t = Some r -> (String.length r < String.length t)%nat.
Proof.
  revert b; induction t as [|c t IH]; intros b H; simpl in H; [discriminate|].
  destruct (Ascii.eqb c dq); [destruct b; [discriminate|]; injection H as <-; simpl; lia|].
  apply IH in H; simpl; lia.
Qed.

Lemma deleted_token_shorter (s rest : string) :
  deleted_token s = Some rest -> (String.length rest < String.length s)%nat.
Proof.
  unfold deleted_token; intros H.
  destruct (String.prefix ("xmlns=" ++ String dq EmptyString) s) eqn:H1;
    [apply skip_value_shorter in H; rewrite str_drop_length in H;
     apply prefix_length in H1; simpl in H1; lia|].
  destruct (String.prefix ("xmlns:ns2=" ++ String dq EmptyString) s) eqn:H2;
    [apply skip_value_shorter in H; rewrite str_drop_length in H;
     apply prefix_length in H2; simpl in H2; lia|].
  destruct (String.prefix "ns2:" s) eqn:H3;
    [assert (Hr : rest = str_drop 4 s) by congruence; subst rest; rewrite str_drop_length;
     apply prefix_length in H3; simpl in H3; lia|].
  destruct (String.prefix "xml:" s) eqn:H4; [|discriminate].
  assert (Hr : rest = str_drop 4 s) by congruence; subst rest; rewrite str_drop_length;
  apply prefix_length in H4; simpl in H4; lia.
Qed.

Lemma prefix_char (a c : ascii) (v : string) :
  String.prefix (String a EmptyString) (String c v) = Ascii.eqb a c.
Proof.
  simpl; destruct (ascii_dec a c), (Ascii.eqb_spec a c); try congruence.
  destruct v; reflexivity.
Qed.

Lemma close_quote_cons (c : ascii) (v : string) :
  close_quote (String c v) = if Ascii.eqb c dq then Some v else None.
Proof.
  unfold close_quote; cbn [rmatch]; rewrite prefix_char, Ascii.eqb_sym.
  destruct (Ascii.eqb c dq); reflexivity.
Qed.

Lemma plus_value_more (t : string) :
  match plus_class not_dq t close_quote with Some r => Some r | None => close_quote t end
  = skip_value false t.
Proof.
  induction t as [|c t IH]; [reflexivity|].
  rewrite close_quote_cons; cbn [plus_class skip_value].
  replace (not_dq c) with (negb (Ascii.eqb c dq)) by reflexivity.
  destruct (Ascii.eqb c dq); cbn [negb]; [reflexivity|].
  rewrite IH; destruct (skip_value false t); reflexivity.
Qed.

Lemma plus_value (t : string) : plus_class not_dq t close_quote = skip_value true t.
Proof.
  destruct t as [|c t]; [reflexivity|].
  cbn [plus_class skip_value].
  replace (not_dq c) with (negb (Ascii.eqb c dq)) by reflexivity.
  destruct (Ascii.eqb c dq); cbn [negb]; [reflexivity|].
  apply plus_value_more.
Qed.

Lemma xmlns_value (u : string) :
  rmatch (RSeq (RLit eq_quote) (RSeq (RPlusClass not_dq) (RLit (String dq EmptyString))))
    u (fun rest => Some rest)
  = if String.prefix eq_quote u then skip_value true (str_drop 2 u) else None.
Proof.
  change (rmatch (RSeq (RLit eq_quote) (RSeq (RPlusClass not_dq) (RLit (String dq EmptyString))))
            u (fun rest => Some rest))
    with (if String.prefix eq_quote u
          then plus_class not_dq (str_drop 2 u) close_quote else None).
  rewrite plus_value; reflexivity.
Qed.

Lemma str_drop_add (m n : nat) (s : string) :
  str_drop (m + n) s = str_drop n (str_drop m s).
Proof.
  revert s; induction m as [|m IH]; intros [|c s]; simpl; auto.
  destruct n; reflexivity.
Qed.

(** The pattern, tried at the start of [s], deletes what [deleted_token]
    deletes. *)
Lemma match_at_xml_ns_pattern (s : string) : match_at xml_ns_pattern s = deleted_token s.
Proof.
  set (V := fun u => rmatch (RSeq (RLit eq_quote)
              (RSeq (RPlusClass not_dq) (RLit (String dq EmptyString)))) u (fun rest => Some rest)).
  change (match_at xml_ns_pattern s) with
    (match (if String.prefix "xmlns" s then
              match (if String.prefix ":ns2" (str_drop 5 s) then V (str_drop 4 (str_drop 5 s)) else None) with
              | Some x => Some x
              | None => V (str_drop 5 s)
              end
            else None) with
     | Some x => Some x
     | None =>
         match (if String.prefix "ns2:" s then Some (str_drop 4 s) else None) with
         | Some x => Some x
         | None => if String.prefix "xml:" s then Some (str_drop 4 s) else None
         end
     end).
  subst V; cbv beta; rewrite !xmlns_value.
  unfold deleted_token.
  replace ("xmlns=" ++ String dq EmptyString) with ("xmlns" ++ eq_quote) by reflexivity.
  replace ("xmlns:ns2=" ++ String dq EmptyString) with ("xmlns" ++ (":ns2" ++ eq_quote)) by reflexivity.
  rewrite !prefix_app.
  replace 11%nat with (5 + (4 + 2))%nat by reflexivity.
  replace 7%nat with (5 + 2)%nat by reflexivity.
  rewrite !str_drop_add.
  destruct (String.prefix "xmlns" s) eqn:H5;
    [|cbn [andb]; destruct (String.prefix "ns2:" s); reflexivity].
  destruct (prefix_split _ _ H5) as [r ->].
  change (String.length "xmlns") with 5%nat.
  change (str_drop 5 ("xmlns" ++ r)) with r.
  change (String.prefix "ns2:" ("xmlns" ++ r)) with false.
  change (String.prefix "xml:" ("xmlns" ++ r)) with false.
  cbn [andb].
  destruct (String.prefix ":ns2" r) eqn:H9.
  - destruct (prefix_split _ _ H9) as [r' ->].
    change (String.length ":ns2") with 4%nat.
    change (str_drop 4 (":ns2" ++ r')) with r'.
    change (String.prefix eq_quote (":ns2" ++ r')) with false.
    cbn [andb].
    destruct (String.prefix eq_quote r'); [|reflexivity].
    destruct (skip_value true (str_drop 2 r')); reflexivity.
  - destruct (String.prefix eq_quote r); [|reflexivity].
    destruct (skip_value true (str_drop 2 r)); reflexivity.
Qed.

Lemma sub_aux_step (r : regex) (repl : string) (f : nat) (s : string) :
  sub_aux r repl (S f) s =
  (let copy_one :=
     match s with
     | EmptyString => EmptyString
     | String c s' => String c (sub_aux r repl f s')
     end in
   match match_at r s with
   | Some rest =>
       if (String.length rest <? String.length s)%nat
       then repl ++ sub_aux r repl f rest
       else repl ++ copy_one
   | None => copy_one
   end).
Proof. reflexivity. Qed.

Lemma sub_aux_Stripped (f : nat) (s : string) :
  (String.length s < f)%nat -> Stripped s (sub_aux xml_ns_pattern EmptyString f s).
Proof.
  revert s; induction f as [|f IH]; intros s Hlen; [lia|].
  rewrite sub_aux_step, match_at_xml_ns_pattern; cbv zeta.
  destruct (deleted_token s) as [rest|] eqn:Hd.
  - pose proof (deleted_token_shorter _ _ Hd) as Hlt.
    apply Nat.ltb_lt in Hlt as Hb; rewrite Hb.
    apply stripped_token with rest; [exact Hd|].
    apply IH; lia.
  - destruct s as [|c s]; [constructor|].
    apply stripped_keep; [exact Hd|].
    apply IH; simpl in Hlen; lia.
Qed.

Lemma Stripped_functional (s o1 o2 : string) :
  Stripped s o1 -> Stripped s o2 -> o1 = o2.
Proof.
  intros H1; revert o2; induction H1 as [|s rest out Hd H IH|c s out Hd H IH];
    intros o2 H2; inversion H2; subst.
  - reflexivity.
  - discriminate.
  - discriminate.
  - rewrite Hd in H0; injection H0 as <-; apply IH; assumption.
  - congruence.
  - congruence.
  - apply f_equal, IH; assumption.
Qed.

End StripNamespaces.

(** C10: [remove_xml_namespaces] deletes exactly the [xmlns=QvQ] and
    [xmlns:ns2=QvQ] declarations ([v] non-empty) and every literal [ns2:] and
    [xml:], wherever they stand, and keeps every other character: its result
    is the unique output of [Stripped]. In particular character data holding
    [xml:] is altered. *)
Theorem remove_xml_namespaces_deletes_exactly :
  (forall data out : string,
     Stripped data (remove_xml_namespaces data) /\
     (Stripped data out -> out = remove_xml_namespaces data)) /\
  remove_xml_namespaces "<note>see xml:lang</note>" = "<note>see lang</note>".
Proof.
  split; [|reflexivity].
  intros data out.
  assert (Hs : Stripped data (remove_xml_namespaces data))
    by (apply sub_aux_Stripped; lia).
  split; [exact Hs|].
  intros Ho; exact (Stripped_functional _ _ _ Ho Hs).
Qed.

(** A witness for C10 at a concrete document. *)
Lemma remove_xml_namespaces_deletes_exactly_witness :
  "a" = remove_xml_namespaces "xml:a".
Proof.
  apply (proj2 (proj1 remove_xml_namespaces_deletes_exactly "xml:a" "a")).
  apply stripped_token with "a"; [reflexivity|].
  apply stripped_keep; [reflexivity|constructor].
Defined.

(* ------------------------------------------------------------------ *)
(** ** Sorting the keys *)

Section SortedKeys.

Lemma string_compare_trans (a b c : string) :
  String.compare a b <> Gt -> String.compare b c <> Gt -> String.compare a c <> Gt.
Proof.
  revert b c; induction a as [|x a IH]; intros [|y b] [|z c]; simpl; try congruence.
  unfold Ascii.compare.
  destruct (N.compare_spec (N_of_ascii x) (N_of_ascii y)) as [Hxy|Hxy|Hxy];
  destruct (N.compare_spec (N_of_ascii y) (N_of_ascii z)) as [Hyz|Hyz|Hyz];
  destruct (N.compare_spec (N_of_ascii x) (N_of_ascii z)) as [Hxz|Hxz|Hxz];
  intros H1 H2; try lia; try congruence.
  apply (IH b c); assumption.
Qed.

Lemma string_leb_trans (a b c : string) :
  String.leb a b = true -> String.leb b c = true -> String.leb a c = true.
Proof.
  unfold String.leb; intros H1 H2.
  destruct (String.compare a c) eqn:Hac; try reflexivity.
  exfalso; apply (string_compare_trans a b c); [| |exact Hac];
    intros E; rewrite E in *; discriminate.
Qed.

Lemma insert_sorted_perm (x : string) (l : list string) :
  Permutation (insert_sorted x l) (x :: l).
Proof.
  induction l as [|y l IH]; simpl; [constructor; constructor|].
  destruct (String.leb x y); [reflexivity|].
  transitivity (y :: x :: l); [constructor; exact IH|constructor].
Qed.

Lemma sorted_perm (l : list string) : Permutation (sorted l) l.
Proof.
  induction l as [|x l IH]; simpl; [constructor|].
  rewrite insert_sorted_perm; constructor; exact IH.
Qed.

Lemma insert_sorted_StronglySorted (x : string) (l : list string) :
  StronglySorted (fun a b => String.leb a b = true) l ->
  StronglySorted (fun a b => String.leb a b = true) (insert_sorted x l).
Proof.
  induction l as [|y l IH]; intros Hs; simpl.
  - constructor; constructor.
  - apply StronglySorted_inv in Hs as [Hl Hy].
    destruct (String.leb x y) eqn:Hxy.
    + constructor; [constructor; assumption|].
      constructor; [exact Hxy|].
      eapply Forall_impl; [|exact Hy]; intros z Hz; eapply string_leb_trans; eassumption.
    + constructor; [apply IH; exact Hl|].
      assert (Hyx : String.leb y x = true)
        by (destruct (String.leb_total x y); congruence).
      apply (Permutation_Forall (Permutation_sym (insert_sorted_perm x l))).
      constructor; assumption.
Qed.

Lemma sorted_StronglySorted (l : list string) :
  StronglySorted (fun a b => String.leb a b = true) (sorted l).
Proof.
  induction l as [|x l IH]; simpl; [constructor|].
  apply insert_sorted_StronglySorted, IH.
Qed.

Lemma StronglySorted_perm_unique (l1 l2 : list string) :
  StronglySorted (fun a b => String.leb a b = true) l1 ->
  StronglySorted (fun a b => String.leb a b = true) l2 ->
  Permutation l1 l2 -> l1 = l2.
Proof.
  revert l2; induction l1 as [|a l1 IH]; intros l2 H1 H2 Hp.
  - symmetry; apply Permutation_nil; exact Hp.
  - destruct l2 as [|b l2]; [apply Permutation_sym, Permutation_nil in Hp; discriminate|].
    apply StronglySorted_inv in H1 as [H1 Ha], H2 as [H2 Hb].
    assert (a = b) as <-.
    { destruct (string_dec a b) as [|Hne]; [assumption|].
      assert (Ina : In a l2).
      { assert (In a (b :: l2)) as [|] by (apply (Permutation_in _ Hp); left; reflexivity);
          [congruence|assumption]. }
      assert (Inb : In b l1).
      { assert (In b (a :: l1)) as [|] by (apply (Permutation_in _ (Permutation_sym Hp)); left; reflexivity);
          [congruence|assumption]. }
      apply String.leb_antisym.
      - exact (proj1 (Forall_forall _ _) Ha b Inb).
      - exact (proj1 (Forall_forall _ _) Hb a Ina). }
    f_equal; apply IH; [assumption|assumption|].
    apply Permutation_cons_inv with a; exact Hp.
Qed.

Lemma sorted_perm_invariant (l1 l2 : list string) :
  Permutation l1 l2 -> sorted l1 = sorted l2.
Proof.
  intros Hp; apply StronglySorted_perm_unique; try apply sorted_StronglySorted.
  rewrite !sorted_perm; exact Hp.
Qed.

End SortedKeys.

(* ------------------------------------------------------------------ *)
(** ** The request description *)

Section Description.

Lemma In_dict_keys {V} (d : dict V) (k : string) :
  In k (dict_keys d) <-> dict_get d k <> None.
Proof.
  induction d as [|[k' v] d IH]; simpl; [tauto|].
  destruct (String.eqb_spec k k') as [->|Hne].
  - split; [discriminate|left; reflexivity].
  - rewrite <- IH; split; [intros [->|H]; [congruence|exact H]|right; assumption].
Qed.

Lemma StronglySorted_strict (l : list string) :
  StronglySorted (fun a b => String.leb a b = true) l -> NoDup l ->
  StronglySorted (fun a b => String.ltb a b = true) l.
Proof.
  induction l as [|a l IH]; intros Hs Hn; [constructor|].
  apply StronglySorted_inv in Hs as [Hs Ha]; inversion Hn as [|? ? Hnot Hn']; subst.
  constructor; [apply IH; assumption|].
  apply Forall_forall; intros b Hb.
  pose proof (proj1 (Forall_forall _ _) Ha b Hb) as Hab.
  unfold String.leb, String.ltb in *.
  destruct (String.compare a b) eqn:E; try discriminate; [|reflexivity].
  apply String.compare_eq_iff in E; subst; contradiction.
Qed.

End Description.

(** C3: [calc_request_description] joins the ["key=value"] items with ["&"],
    the keys in strictly increasing code-point (lexicographic) order; two
    mappings with the same contents give the same description whatever their
    insertion order; and [{foo: 1, bar: 4, baz: potato}] gives exactly
    [bar=4&baz=potato&foo=1]. *)
Theorem calc_request_description_canonical :
  (forall params : dict PyVal, NoDup (dict_keys params) ->
     exists keys,
       StronglySorted (fun a b => String.ltb a b = true) keys /\
       Permutation keys (dict_keys params) /\
       (forall k v, dict_get params k = Some v ->
          description_item params k = k ++ "=" ++ py_str v) /\
       calc_request_description params = String.concat "&" (map (description_item params) keys)) /\
  (forall p1 p2 : dict PyVal, NoDup (dict_keys p1) -> NoDup (dict_keys p2) ->
     (forall k, dict_get p1 k = dict_get p2 k) ->
     calc_request_description p1 = calc_request_description p2) /\
  calc_request_description [("foo", VInt 1); ("bar", VInt 4); ("baz", VStr "potato")]
    = "bar=4&baz=potato&foo=1".
Proof.
  split; [|split; [|reflexivity]].
  - intros params Hn.
    exists (sorted (dict_keys params)); split; [|split; [|split]].
    + apply StronglySorted_strict; [apply sorted_StronglySorted|].
      apply (Permutation_NoDup (Permutation_sym (sorted_perm _))); exact Hn.
    + apply sorted_perm.
    + intros k v Hk; unfold description_item; rewrite Hk; reflexivity.
    + reflexivity.
  - intros p1 p2 H1 H2 Hget.
    unfold calc_request_description.
    rewrite (sorted_perm_invariant (dict_keys p1) (dict_keys p2)).
    + f_equal; apply map_ext; intros k; unfold description_item; rewrite Hget; reflexivity.
    + apply NoDup_Permutation; [exact H1|exact H2|].
      intros k; rewrite !In_dict_keys, Hget; tauto.
Qed.

(** A witness for C3: the example mapping in two insertion orders. *)
Lemma calc_request_description_canonical_witness :
  calc_request_description [("foo", VInt 1); ("bar", VInt 4); ("baz", VStr "potato")]
  = calc_request_description [("baz", VStr "potato"); ("foo", VInt 1); ("bar", VInt 4)].
Proof.
  apply (proj1 (proj2 calc_request_description_canonical)).
  - vm_compute; repeat constructor; simpl; intuition discriminate.
  - vm_compute; repeat constructor; simpl; intuition discriminate.
  - intros k; simpl.
    destruct (String.eqb_spec k "foo") as [->|]; [reflexivity|].
    destruct (String.eqb_spec k "bar") as [->|]; [reflexivity|].
    destruct (String.eqb_spec k "baz"); reflexivity.
Defined.

(* ------------------------------------------------------------------ *)
(** ** Region resolution *)

Lemma Marketplaces_getitem_in (name : string) (m : string * (string * string)) :
  Marketplaces_getitem name = Some m -> In m Marketplaces_defs.
Proof.
  unfold Marketplaces_getitem; destruct (dict_get Marketplaces_defs name); [|discriminate].
  intros H; apply find_some in H; tauto.
Qed.

(** C5: region [US] resolves to [https://mws.amazonservices.com]; a region
    outside the 19 registry names fails with [MWSError] whose message lists
    every valid code; [UK] and [GB] build the same client (same endpoint)
    and name the same member (same marketplace id). *)
Theorem MWS_init_region_resolution :
  (forall cls ak sk acc u v tok prx,
     exists c, MWS_init cls ak sk acc "US" u v tok prx = inr c /\
               domain c = "https://mws.amazonservices.com") /\
  Marketplaces_members =
    ["AE"; "AU"; "BR"; "CA"; "DE"; "EG"; "ES"; "FR"; "GB"; "IN"; "IT"; "JP"; "MX";
     "NL"; "SA"; "SG"; "TR"; "UK"; "US"] /\
  (forall cls ak sk acc region u v tok prx,
     ~ In region Marketplaces_members ->
     MWS_init cls ak sk acc region u v tok prx
     = inl (MWSError ("Incorrect region supplied: " ++ region
                      ++ ". Must be one of the following: "
                      ++ String.concat ", " Marketplaces_members) None)) /\
  (forall cls ak sk acc u v tok prx,
     MWS_init cls ak sk acc "UK" u v tok prx = MWS_init cls ak sk acc "GB" u v tok prx) /\
  option_map endpoint (Marketplaces_getitem "UK") = option_map endpoint (Marketplaces_getitem "GB") /\
  option_map marketplace_id (Marketplaces_getitem "UK")
    = option_map marketplace_id (Marketplaces_getitem "GB").
Proof.
  split; [|split; [reflexivity|split; [|split; [|split]]]].
  - intros; eexists; split; reflexivity.
  - intros cls ak sk acc region u v tok prx Hnot.
    unfold MWS_init.
    destruct (existsb (String.eqb region) Marketplaces_members) eqn:He.
    + apply existsb_exists in He as [x [Hx Heq]].
      apply String.eqb_eq in Heq; subst; contradiction.
    + reflexivity.
  - reflexivity.
  - reflexivity.
  - reflexivity.
Qed.

(** A witness for C5 at the region [ZZ]. *)
Lemma MWS_init_region_resolution_witness :
  MWS_init MWS_base "key" "secret" "seller" "ZZ" EmptyString EmptyString EmptyString None
  = inl (MWSError ("Incorrect region supplied: ZZ. Must be one of the following: "
                   ++ "AE, AU, BR, CA, DE, EG, ES, FR, GB, IN, IT, JP, MX, NL, SA, SG, TR, UK, US")
           None).
Proof.
  rewrite (proj1 (proj2 (proj2 MWS_init_region_resolution))).
  - reflexivity.
  - simpl; intuition discriminate.
Defined.

(* ------------------------------------------------------------------ *)
(** ** The signature *)

Lemma registry_endpoints_strip :
  forall m, In m Marketplaces_defs ->
  py_replace (endpoint m) "https://" EmptyString = strip_scheme (endpoint m).
Proof.
  apply Forall_forall; repeat constructor.
Qed.

(** C1: for a client built from a valid region, [calc_signature] is
    base64(HMAC-SHA256(secret key, method, host, uri, description joined by
    newlines)), the host being the domain without its scheme, lower-cased. *)
Theorem calc_signature_is_v2 :
  forall (hmac_sha256 : list byte -> list byte -> list byte) (b64encode : list byte -> list byte)
         cls ak sk acc region u v tok prx (self : MWS) (method request_description : string),
  MWS_init cls ak sk acc region u v tok prx = inr self ->
  calc_signature hmac_sha256 b64encode self method request_description
  = signature_v2 hmac_sha256 b64encode (secret_key self) method (domain self) (uri self)
      request_description.
Proof.
  intros hmac_sha256 b64encode cls ak sk acc region u v tok prx self method desc Hinit.
  unfold MWS_init in Hinit.
  destruct (existsb (String.eqb region) Marketplaces_members); [|discriminate].
  destruct (Marketplaces_getitem region) as [m|] eqn:Hm; [|discriminate].
  injection Hinit as <-.
  unfold calc_signature, signature_v2; cbn [domain uri secret_key].
  rewrite (registry_endpoints_strip m (Marketplaces_getitem_in _ _ Hm)).
  reflexivity.
Qed.

(** A witness for C1 at region [US], with stand-in digest functions. *)
Lemma calc_signature_is_v2_witness :
  calc_signature (fun k m => app k m) (fun b => b)
    {| access_key := "key"; secret_key := "secret"; account_id := "seller";
       auth_token := EmptyString; version := "2009-01-01"; uri := "/Orders/2013-09-01";
       proxy := None; _test_request_params := false;
       domain := "https://mws.amazonservices.com" |} "GET" "Action=GetServiceStatus"
  = signature_v2 (fun k m => app k m) (fun b => b) "secret" "GET"
      "https://mws.amazonservices.com" "/Orders/2013-09-01" "Action=GetServiceStatus".
Proof.
  apply (calc_signature_is_v2 (fun k m => app k m) (fun b => b) MWS_base
           "key" "secret" "seller" "US" "/Orders/2013-09-01" EmptyString EmptyString None).
  reflexivity.
Defined.

(* ------------------------------------------------------------------ *)
(** ** The default parameters *)

Lemma dict_set_new {V} (d : dict V) (k : string) (v : V) :
  ~ In k (dict_keys d) -> dict_set d k v = app d [(k, v)].
Proof.
  induction d as [|[k' v'] r IH]; intros Hn; [reflexivity|].
  cbn [dict_set]; cbn [dict_keys map fst] in Hn.
  destruct (String.eqb_spec k k') as [->|Hne]; [exfalso; apply Hn; left; reflexivity|].
  rewrite IH; [reflexivity|intros H; apply Hn; right; exact H].
Qed.

Lemma dict_update_fresh {V} (l d : dict V) :
  NoDup (dict_keys (app d l)) -> dict_update d l = app d l.
Proof.
  revert d; induction l as [|[k v] r IH]; intros d Hnd.
  - rewrite app_nil_r; reflexivity.
  - unfold dict_update; cbn [fold_left fst snd].
    rewrite dict_set_new.
    + fold (dict_update (app d [(k, v)]) r); rewrite IH, <- app_assoc; [reflexivity|].
      rewrite <- app_assoc; exact Hnd.
    + unfold dict_keys in *; rewrite map_app in Hnd; cbn [map fst] in Hnd.
      apply NoDup_remove_2 in Hnd; rewrite in_app_iff in Hnd; tauto.
Qed.

Lemma dict_of_list_fresh {V} (l : dict V) : NoDup (dict_keys l) -> dict_of_list l = l.
Proof. intros H; apply (dict_update_fresh l []); exact H. Qed.

(** The dict [get_default_params] builds, written out entry by entry. *)
Lemma get_default_params_entries (cls : MWSClass) (self : MWS) (ts action : string) :
  ~ In (ACCOUNT_TYPE cls) core_param_names ->
  get_default_params cls self ts action =
    app [("Action", VStr action);
     ("AWSAccessKeyId", VStr (access_key self));
     (ACCOUNT_TYPE cls, VStr (account_id self));
     ("SignatureVersion", VStr "2");
     ("Timestamp", VStr ts);
     ("Version", VStr (version self));
     ("SignatureMethod", VStr "HmacSHA256")]
      (if String.eqb (auth_token self) EmptyString then []
       else [("MWSAuthToken", VStr (auth_token self))]).
Proof.
  unfold get_default_params, truthy.
  generalize (ACCOUNT_TYPE cls) as A; intros A Hn.
  assert (HA : forall x, In x core_param_names -> x <> A)
    by (intros x Hx ->; contradiction).
  unfold core_param_names in HA.
  rewrite dict_of_list_fresh.
  - destruct (String.eqb (auth_token self) EmptyString); cbn [negb]; [reflexivity|].
    rewrite dict_set_new; [reflexivity|].
    cbn [dict_keys map fst In]; intros H.
    repeat destruct H as [H|H]; try discriminate H; try contradiction.
    symmetry in H; revert H; apply HA; simpl; tauto.
  - cbn [dict_keys map fst].
    repeat constructor; cbn [In]; intros H;
      repeat destruct H as [H|H]; try discriminate H; try contradiction;
      try (revert H; apply HA; simpl; tauto);
      try (symmetry in H; revert H; apply HA; simpl; tauto).
Qed.

Lemma dict_get_NoDup {V} (d : dict V) (k : string) (v : V) :
  NoDup (dict_keys d) -> In (k, v) d -> dict_get d k = Some v.
Proof.
  induction d as [|[k' v'] r IH]; intros Hnd Hin; [destruct Hin|].
  cbn [dict_keys map fst] in Hnd; inversion Hnd as [|? ? Hn Hnd']; subst.
  cbn [dict_get]; destruct Hin as [Heq|Hin].
  - injection Heq as -> ->; rewrite String.eqb_refl; reflexivity.
  - destruct (String.eqb_spec k k') as [->|_].
    + exfalso; apply Hn; apply (in_map fst) in Hin; exact Hin.
    + apply IH; assumption.
Qed.

(** C2: provided the account-type field name is not one of the other
    parameter names, the keys of [get_default_params] are exactly [Action],
    [AWSAccessKeyId], the account-type name, [SignatureVersion], [Timestamp],
    [Version] and [SignatureMethod], plus [MWSAuthToken] exactly when the
    auth token is non-empty; each key occurs once and carries the expected
    value ([SignatureVersion] is [2], [SignatureMethod] is [HmacSHA256]). *)
Theorem get_default_params_keys (cls : MWSClass) (self : MWS) (ts action : string) :
  ~ In (ACCOUNT_TYPE cls) core_param_names ->
  let p := get_default_params cls self ts action in
  dict_keys p =
    app ["Action"; "AWSAccessKeyId"; ACCOUNT_TYPE cls; "SignatureVersion"; "Timestamp";
         "Version"; "SignatureMethod"]
        (if String.eqb (auth_token self) EmptyString then [] else ["MWSAuthToken"]) /\
  NoDup (dict_keys p) /\
  (In "MWSAuthToken" (dict_keys p) <-> auth_token self <> EmptyString) /\
  dict_get p "Action" = Some (VStr action) /\
  dict_get p "AWSAccessKeyId" = Some (VStr (access_key self)) /\
  dict_get p (ACCOUNT_TYPE cls) = Some (VStr (account_id self)) /\
  dict_get p "SignatureVersion" = Some (VStr "2") /\
  dict_get p "Timestamp" = Some (VStr ts) /\
  dict_get p "Version" = Some (VStr (version self)) /\
  dict_get p "SignatureMethod" = Some (VStr "HmacSHA256") /\
  (auth_token self <> EmptyString ->
   dict_get p "MWSAuthToken" = Some (VStr (auth_token self))).
Proof.
  intros Hn p; subst p; rewrite (get_default_params_entries cls self ts action Hn).
  assert (HA : forall x, In x core_param_names -> x <> ACCOUNT_TYPE cls)
    by (intros x Hx Heq; rewrite <- Heq in Hn; contradiction).
  unfold core_param_names in HA.
  revert HA; generalize (ACCOUNT_TYPE cls) as A; intros A HA.
  assert (Hkeys : dict_keys
    (app [("Action", VStr action); ("AWSAccessKeyId", VStr (access_key self));
          (A, VStr (account_id self)); ("SignatureVersion", VStr "2");
          ("Timestamp", VStr ts); ("Version", VStr (version self));
          ("SignatureMethod", VStr "HmacSHA256")]
         (if String.eqb (auth_token self) EmptyString then []
          else [("MWSAuthToken", VStr (auth_token self))]))
    = app ["Action"; "AWSAccessKeyId"; A; "SignatureVersion"; "Timestamp";
           "Version"; "SignatureMethod"]
          (if String.eqb (auth_token self) EmptyString then [] else ["MWSAuthToken"]))
    by (destruct (String.eqb (auth_token self) EmptyString); reflexivity).
  assert (Hnd : NoDup (app ["Action"; "AWSAccessKeyId"; A; "SignatureVersion"; "Timestamp";
           "Version"; "SignatureMethod"]
          (if String.eqb (auth_token self) EmptyString then [] else ["MWSAuthToken"]))).
  { destruct (String.eqb (auth_token self) EmptyString); cbn [app];
      repeat constructor; cbn [In]; intros H;
      repeat destruct H as [H|H]; try discriminate H; try contradiction;
      try (revert H; apply HA; simpl; tauto);
      try (symmetry in H; revert H; apply HA; simpl; tauto). }
  rewrite Hkeys.
  split; [reflexivity|]. split; [exact Hnd|].
  rewrite <- Hkeys in Hnd.
  split.
  { destruct (String.eqb_spec (auth_token self) EmptyString) as [Ht|Ht].
    - split; [|intros H; contradiction].
      cbn [app In]; intros H; exfalso.
      repeat destruct H as [H|H]; try discriminate H; try contradiction;
      try (revert H; apply HA; simpl; tauto);
      try (symmetry in H; revert H; apply HA; simpl; tauto).
    - split; [intros _; exact Ht|intros _].
      apply in_app_iff; right; left; reflexivity. }
  repeat split; try (intros Ht);
    apply dict_get_NoDup; try exact Hnd; try (simpl; tauto).
  destruct (String.eqb_spec (auth_token self) EmptyString) as [He|_]; [contradiction|].
  apply in_app_iff; right; left; reflexivity.
Qed.

(** A witness for C2 with the default account type [SellerId]. *)
Lemma get_default_params_keys_witness :
  dict_keys (get_default_params MWS_base
     {| access_key := "key"; secret_key := "secret"; account_id := "seller";
        auth_token := "token"; version := "2009-01-01"; uri := "/";
        proxy := None; _test_request_params := false;
        domain := "https://mws.amazonservices.com" |} "2020-01-01T00:00:00" "ListOrders")
  = ["Action"; "AWSAccessKeyId"; "SellerId"; "SignatureVersion"; "Timestamp";
     "Version"; "SignatureMethod"; "MWSAuthToken"].
Proof.
  refine (proj1 (get_default_params_keys MWS_base _ _ _ _)).
  cbn; intuition discriminate.
Defined.

(* ------------------------------------------------------------------ *)
(** ** Cleaning the parameters *)

Section CleanParamsProofs.
Variable clean_value : PyVal -> sum exn string.

Lemma keep_param_iff (v : PyVal) :
  keep_param v = false <-> v = VNone \/ v = VStr EmptyString.
Proof.
  destruct v as [| | |s| |]; cbn; try (split; [discriminate|intros [H|H]; discriminate H]).
  - split; [left; reflexivity|reflexivity].
  - unfold truthy; destruct (String.eqb_spec s EmptyString) as [->|Hs]; cbn.
    + split; [right; reflexivity|reflexivity].
    + split; [discriminate|intros [H|H]; [discriminate H|injection H; contradiction]].
Qed.

Lemma NoDup_filter_keys (f : string * PyVal -> bool) (l : dict PyVal) :
  NoDup (dict_keys l) -> NoDup (dict_keys (filter f l)).
Proof.
  induction l as [|[k v] r IH]; intros H; [constructor|].
  cbn [dict_keys map fst] in H; inversion H as [|? ? Hn Hnd]; subst.
  cbn [filter]; destruct (f (k, v)); [|apply IH; exact Hnd].
  cbn [dict_keys map fst]; constructor; [|apply IH; exact Hnd].
  intros Hin; apply Hn; unfold dict_keys in Hin.
  apply in_map_iff in Hin as [[k' v'] [Hk Hin]]; cbn in Hk; subst k'.
  apply filter_In in Hin as [Hin _]; apply (in_map fst) in Hin; exact Hin.
Qed.

Lemma clean_loop_ok (l acc out : dict PyVal) :
  NoDup (dict_keys (app acc l)) ->
  clean_loop clean_value l acc = inr out <->
  exists out', out = app acc out' /\ Forall2 (cleaned_entry clean_value) l out'.
Proof.
  revert acc; induction l as [|[k v] r IH]; intros acc Hnd; cbn [clean_loop].
  - split.
    + intros H; injection H as <-; exists []; split; [rewrite app_nil_r; reflexivity|constructor].
    + intros [out' [-> H]]; inversion H; subst; rewrite app_nil_r; reflexivity.
  - destruct (clean_value v) as [e|c] eqn:Hv.
    + assert (Hno : ~ exists out', out = app acc out' /\ Forall2 (cleaned_entry clean_value) ((k, v) :: r) out').
      { intros [out' [_ H]]; inversion H as [|? kc ? ? [_ [c [Hc _]]]]; subst.
        cbn in Hc; congruence. }
      destruct e; (split; [discriminate|intros H; contradiction]).
    + unfold dict_keys in Hnd; rewrite map_app in Hnd; cbn [map fst] in Hnd.
      rewrite dict_set_new.
      2:{ apply NoDup_remove_2 in Hnd; rewrite in_app_iff in Hnd; unfold dict_keys; tauto. }
      rewrite IH.
      2:{ unfold dict_keys; rewrite <- app_assoc, map_app; exact Hnd. }
      split.
      * intros [out'' [-> H]]; exists ((k, VStr c) :: out''); split.
        -- rewrite <- app_assoc; reflexivity.
        -- constructor; [split; [reflexivity|exists c; split; [exact Hv|reflexivity]]|exact H].
      * intros [out' [-> H]]; inversion H as [|? [k' x] ? out'' [Hk [c' [Hc' Hx]]] Hr]; subst.
        cbn in Hk, Hc', Hx; subst.
        rewrite Hv in Hc'; injection Hc' as ->.
        exists out''; split; [rewrite <- app_assoc; reflexivity|exact Hr].
Qed.

Lemma clean_loop_fail (pre post acc : dict PyVal) (kv : string * PyVal) (m : string) :
  NoDup (dict_keys (app acc (app pre (kv :: post)))) ->
  Forall (fun kv => exists c, clean_value (snd kv) = inr c) pre ->
  clean_value (snd kv) = inl (ValueError m) ->
  clean_loop clean_value (app pre (kv :: post)) acc = inl (MWSError m None).
Proof.
  revert acc; induction pre as [|[k v] r IH]; intros acc Hnd Hpre Hkv.
  - destruct kv as [k v]; cbn [app clean_loop]; cbn in Hkv; rewrite Hkv; reflexivity.
  - inversion Hpre as [|? ? [c Hc] Hr]; subst; cbn in Hc.
    cbn [app clean_loop]; rewrite Hc.
    unfold dict_keys in Hnd; rewrite map_app in Hnd; cbn [map fst app] in Hnd.
    rewrite dict_set_new.
    2:{ apply NoDup_remove_2 in Hnd; rewrite in_app_iff in Hnd; unfold dict_keys; tauto. }
    apply IH; [|exact Hr|exact Hkv].
    unfold dict_keys; rewrite <- app_assoc, map_app; exact Hnd.
Qed.
End CleanParamsProofs.

(** C4: for a dict (distinct keys) and any scalar cleaner, [clean_params]
    drops exactly the entries whose value is [None] or the empty string; it
    succeeds with [out] exactly when every kept value cleans, [out] holding
    the kept keys in order, each mapped to its cleaned value; and when the
    first kept value that does not clean fails with [ValueError m], the
    result is [MWSError m] (no response attached). *)
Theorem clean_params_spec :
  (forall v, keep_param v = false <-> v = VNone \/ v = VStr EmptyString) /\
  forall (clean_value : PyVal -> sum exn string) (params : dict PyVal),
  NoDup (dict_keys params) ->
  (forall out, clean_params clean_value params = inr out <->
     Forall2 (cleaned_entry clean_value) (filter (fun kv => keep_param (snd kv)) params) out) /\
  (forall pre kv post m,
     filter (fun kv => keep_param (snd kv)) params = app pre (kv :: post) ->
     Forall (fun kv => exists c, clean_value (snd kv) = inr c) pre ->
     clean_value (snd kv) = inl (ValueError m) ->
     clean_params clean_value params = inl (MWSError m None)).
Proof.
  split; [exact keep_param_iff|].
  intros cv params Hnd.
  pose proof (NoDup_filter_keys (fun kv => keep_param (snd kv)) params Hnd) as Hf.
  split.
  - intros out; unfold clean_params; rewrite clean_loop_ok by exact Hf.
    split; [intros [out' [-> H]]; exact H|intros H; exists out; split; [reflexivity|exact H]].
  - intros pre kv post m Heq Hpre Hkv; unfold clean_params; rewrite Heq.
    apply clean_loop_fail; [|exact Hpre|exact Hkv].
    rewrite <- Heq; exact Hf.
Qed.

(** A witness for C4: [clean_param_value] on a dict holding an empty
    string, a [None], a boolean, and then a list. *)
Lemma clean_params_spec_witness :
  clean_params clean_param_value
    [("A", VStr EmptyString); ("B", VNone); ("C", VBool true);
     ("D", VList [VInt 1]); ("E", VInt 2)]
  = inl (MWSError "Cannot clean parameter value of type list: [1]" None).
Proof.
  apply (proj2 (proj2 clean_params_spec clean_param_value
             [("A", VStr EmptyString); ("B", VNone); ("C", VBool true);
              ("D", VList [VInt 1]); ("E", VInt 2)]
             ltac:(cbn; repeat constructor; cbn; intuition discriminate))
           [("C", VBool true)] ("D", VList [VInt 1]) [("E", VInt 2)]).
  - reflexivity.
  - constructor; [eexists; reflexivity|constructor].
  - reflexivity.
Defined.

(* ------------------------------------------------------------------ *)
(** ** Client methods *)

Section ClientProofs.
Variable utc_timestamp : string.
Variable hmac_sha256 : list byte -> list byte -> list byte.
Variable b64encode : list byte -> list byte.
Variable request : HttpRequest -> HttpResponse.
Variable Parsed : Type.
Variable DictWrapper : Body -> string -> sum exn Parsed.
Variable DataWrapper : list byte -> dict string -> sum exn Parsed.

Let make_request' := make_request utc_timestamp hmac_sha256 b64encode request Parsed
  DictWrapper DataWrapper.
Let action_by_next_token' := action_by_next_token utc_timestamp hmac_sha256 b64encode
  request Parsed DictWrapper DataWrapper.
Let generic_request' := generic_request utc_timestamp hmac_sha256 b64encode request
  Parsed DictWrapper DataWrapper.
Let get_service_status' := get_service_status utc_timestamp hmac_sha256 b64encode request
  Parsed DictWrapper DataWrapper.

Lemma make_request_sent_method cls self action extra_data method kwargs r :
  sent (make_request' cls self action extra_data method kwargs) = Some r ->
  req_method r = method.
Proof.
  unfold make_request', make_request.
  destruct (clean_params _ _); [discriminate|].
  destruct (_test_request_params self); [discriminate|].
  cbn [sent]; intros H; injection H as <-; reflexivity.
Qed.

Lemma prefix_self_app (a b : string) : String.prefix a (a ++ b) = true.
Proof.
  induction a as [|x a IH]; [destruct b; reflexivity|].
  simpl; destruct (ascii_dec x x) as [_|n]; [exact IH|contradiction].
Qed.

(** C9: an action outside [NEXT_TOKEN_OPERATIONS] raises [MWSError] whose
    message starts with the action; an action inside it is dispatched as
    [make_request] of the action with [ByNextToken] appended, the sole
    extra parameter [NextToken] and method [POST], so any request it sends
    is a POST. *)
Theorem action_by_next_token_gating (cls : MWSClass) (self : MWS) (action : string)
    (next_token : PyVal) :
  (~ In action (NEXT_TOKEN_OPERATIONS cls) ->
   action_by_next_token' cls self action next_token
   = raise (MWSError (next_token_error_msg action) None)
   /\ String.prefix action (next_token_error_msg action) = true) /\
  (In action (NEXT_TOKEN_OPERATIONS cls) ->
   action_by_next_token' cls self action next_token
   = make_request' cls self (action ++ "ByNextToken") [("NextToken", next_token)] "POST"
       no_kwargs
   /\ forall r, sent (action_by_next_token' cls self action next_token) = Some r ->
        req_method r = "POST").
Proof.
  unfold action_by_next_token', action_by_next_token.
  split; intros Hin.
  - destruct (existsb (String.eqb action) (NEXT_TOKEN_OPERATIONS cls)) eqn:He.
    + apply existsb_exists in He as [x [Hx Heq]].
      apply String.eqb_eq in Heq; subst; contradiction.
    + split; [reflexivity|].
      unfold next_token_error_msg; apply prefix_self_app.
  - assert (He : existsb (String.eqb action) (NEXT_TOKEN_OPERATIONS cls) = true)
      by (apply existsb_exists; exists action; split; [exact Hin|apply String.eqb_refl]).
    rewrite He; cbn [negb].
    split; [reflexivity|].
    intros r; apply make_request_sent_method.
Qed.

(** C6, as the code has it: [generic_request] on a client whose [uri] is
    empty or [/] raises [ValueError] with the URI message, and on another
    client, with [parameters] that is not a dict, raises [ValueError]
    [`parameters` must be a dict.]; nothing is sent in either case. *)
Theorem generic_request_errors (cls : MWSClass) (self : MWS) (action : string)
    (parameters : PyVal) (method : string) (kwargs : Kwargs) :
  ((uri self = EmptyString \/ uri self = "/") ->
   generic_request' cls self action parameters method kwargs
   = raise (ValueError (generic_uri_error_msg (uri self)))) /\
  (uri self <> EmptyString -> uri self <> "/" ->
   (forall kvs, parameters <> VDict kvs) ->
   generic_request' cls self action parameters method kwargs
   = raise (ValueError "`parameters` must be a dict.")).
Proof.
  unfold generic_request', generic_request, truthy.
  assert (Hbad : (uri self = EmptyString \/ uri self = "/") ->
                 (negb (negb (String.eqb (uri self) EmptyString)) || String.eqb (uri self) "/")
                 = true).
  { intros [-> | ->]; reflexivity. }
  assert (Hgood : uri self <> EmptyString -> uri self <> "/" ->
                  (negb (negb (String.eqb (uri self) EmptyString)) || String.eqb (uri self) "/")
                  = false).
  { intros H1 H2; apply String.eqb_neq in H1; apply String.eqb_neq in H2.
    rewrite H1, H2; reflexivity. }
  split; [intros H; rewrite (Hbad H); reflexivity|].
  intros H1 H2 Hp; rewrite (Hgood H1 H2).
  destruct parameters; try reflexivity.
  exfalso; eapply Hp; reflexivity.
Qed.

(** C8: [get_service_status] calls [make_request] without its required
    [action] argument, so every call raises [TypeError] before any request
    is sent. *)
Theorem get_service_status_fails (cls : MWSClass) (self : MWS) :
  get_service_status' cls self
  = raise (TypeError "MWS.make_request() missing 1 required positional argument: 'action'")
  /\ sent (get_service_status' cls self) = None.
Proof.
  split; reflexivity.
Qed.
End ClientProofs.

(** A witness for C9: [GetOrder] is not a next-token operation of the
    sample API. *)
Lemma action_by_next_token_gating_witness :
  action_by_next_token "2020-01-01T00:00:00Z" (fun _ m => m) (fun b => b) sample_request
    string sample_DictWrapper sample_DataWrapper sample_api sample_client "GetOrder"
    (VStr "token")
  = raise (MWSError "GetOrder action not listed in this API's NEXT_TOKEN_OPERATIONS. Please refer to documentation." None).
Proof.
  refine (proj1 (proj1 (action_by_next_token_gating "2020-01-01T00:00:00Z" (fun _ m => m)
    (fun b => b) sample_request string sample_DictWrapper sample_DataWrapper sample_api
    sample_client "GetOrder" (VStr "token")) _)).
  cbn; intuition discriminate.
Defined.

(** C6 does not hold: on a client whose [uri] is [/], and on a client with
    an operation path but [parameters] that is not a dict, [generic_request]
    raises [ValueError], which is not [MWSError]. *)
Lemma generic_request_raises_ValueError :
  let base_client := {|
    access_key := "key"; secret_key := "secret"; account_id := "seller";
    auth_token := EmptyString; version := "2009-01-01"; uri := "/";
    proxy := None; _test_request_params := false;
    domain := "https://mws.amazonservices.com" |} in
  let call self parameters := generic_request "2020-01-01T00:00:00Z" (fun _ m => m)
    (fun b => b) sample_request string sample_DictWrapper sample_DataWrapper MWS_base self
    "ListOrders" parameters "GET" no_kwargs in
  ret (call base_client (VDict [("MarketplaceId", VStr "ATVPDKIKX0DER")]))
  = inl (ValueError (generic_uri_error_msg "/")) /\
  ret (call sample_client VNone) = inl (ValueError "`parameters` must be a dict.") /\
  is_MWSError (ValueError (generic_uri_error_msg "/")) = false /\
  is_MWSError (ValueError "`parameters` must be a dict.") = false.
Proof.
  repeat split.
Qed.

(** A witness for C6 as amended: the sample client with [parameters]
    [None]. *)
Lemma generic_request_errors_witness :
  generic_request "2020-01-01T00:00:00Z" (fun _ m => m) (fun b => b) sample_request string
    sample_DictWrapper sample_DataWrapper sample_api sample_client "ListOrders" VNone "GET"
    no_kwargs
  = raise (ValueError "`parameters` must be a dict.").
Proof.
  apply (proj2 (generic_request_errors "2020-01-01T00:00:00Z" (fun _ m => m) (fun b => b)
    sample_request string sample_DictWrapper sample_DataWrapper sample_api sample_client
    "ListOrders" VNone "GET" no_kwargs)).
  - discriminate.
  - discriminate.
  - intros kvs; discriminate.
Defined.

(** C7 does not hold: without a [result_key] option the result key is the
    [Action] entry of [extra_data] with [Result] appended, not the [action]
    argument; when [extra_data] has no [Action] entry, the call sends its
    request and then raises [TypeError] ([None + Result]). *)
Theorem make_request_result_key_from_extra_data :
  let call action extra_data := make_request "2020-01-01T00:00:00Z" (fun _ m => m)
    (fun b => b) sample_request string sample_DictWrapper sample_DataWrapper sample_api
    sample_client action extra_data "GET" no_kwargs in
  ret (call "ListOrders" [])
  = inl (TypeError "unsupported operand type(s) for +: 'NoneType' and 'str'") /\
  sent (call "ListOrders" []) <> None /\
  ret (call "ListOrders" [("Action", VStr "GetOrder")])
  = inr (RParsed "GetOrderResult" sample_response).
Proof.
  split; [vm_compute; reflexivity|].
  split; [vm_compute; discriminate|].
  vm_compute; reflexivity.
Qed.

(* ================================================================== *)
(** * Further properties of the code *)

(* ------------------------------------------------------------------ *)
(** ** [remove_xml_namespaces] *)

Lemma prefix_In (p s : string) (c : ascii) :
  String.prefix p s = true -> In c (list_ascii_of_string p) -> In c (list_ascii_of_string s).
Proof.
  revert s; induction p as [|x p IH]; intros s Hp Hc; [destruct Hc|].
  destruct s as [|y s]; [discriminate|].
  cbn in Hp; destruct (ascii_dec x y) as [<-|]; [|discriminate].
  cbn in Hc |- *; destruct Hc as [<-|Hc]; [left; reflexivity|right; apply IH; assumption].
Qed.

Lemma deleted_token_sep (s : string) :
  ~ In ":"%char (list_ascii_of_string s) -> ~ In "="%char (list_ascii_of_string s) ->
  deleted_token s = None.
Proof.
  intros Hc He; unfold deleted_token.
  destruct (String.prefix ("xmlns=" ++ String dq EmptyString) s) eqn:H1.
  { exfalso; apply He; apply (prefix_In _ _ _ H1); simpl; intuition. }
  destruct (String.prefix ("xmlns:ns2=" ++ String dq EmptyString) s) eqn:H2.
  { exfalso; apply He; apply (prefix_In _ _ _ H2); simpl; intuition. }
  destruct (String.prefix "ns2:" s) eqn:H3.
  { exfalso; apply Hc; apply (prefix_In _ _ _ H3); simpl; intuition. }
  destruct (String.prefix "xml:" s) eqn:H4.
  { exfalso; apply Hc; apply (prefix_In _ _ _ H4); simpl; intuition. }
  reflexivity.
Qed.

Lemma Stripped_length (s out : string) :
  Stripped s out -> (String.length out <= String.length s)%nat.
Proof.
  induction 1 as [|s rest out Hd _ IH|c s out _ _ IH].
  - reflexivity.
  - pose proof (deleted_token_shorter _ _ Hd); lia.
  - cbn; lia.
Qed.

Lemma Stripped_sep_free (s : string) :
  ~ In ":"%char (list_ascii_of_string s) -> ~ In "="%char (list_ascii_of_string s) ->
  Stripped s s.
Proof.
  induction s as [|c s IH]; intros Hc He; [constructor|].
  apply stripped_keep; [apply deleted_token_sep; assumption|].
  apply IH; intros H; [apply Hc|apply He]; right; exact H.
Qed.

(** [remove_xml_namespaces] never lengthens its input, and leaves a text
    with no [:] and no [=] unchanged. *)
Theorem remove_xml_namespaces_shrinks (data : string) :
  (String.length (remove_xml_namespaces data) <= String.length data)%nat /\
  (~ In ":"%char (list_ascii_of_string data) -> ~ In "="%char (list_ascii_of_string data) ->
   remove_xml_namespaces data = data).
Proof.
  assert (Hs : Stripped data (remove_xml_namespaces data))
    by (apply sub_aux_Stripped; lia).
  split; [apply Stripped_length; exact Hs|].
  intros Hc He; apply (Stripped_functional data); [exact Hs|].
  apply Stripped_sep_free; assumption.
Qed.

Lemma remove_xml_namespaces_shrinks_witness :
  remove_xml_namespaces "<a>plain text</a>" = "<a>plain text</a>".
Proof.
  apply (proj2 (remove_xml_namespaces_shrinks "<a>plain text</a>")); simpl; intuition discriminate.
Defined.

(* ------------------------------------------------------------------ *)
(** ** [mws_xml_to_dict] and [mws_xml_to_dotdict] *)

(** [mws_xml_to_dict] parses the namespace-stripped text and returns the
    value of the first (root) entry of the parse; the [.get] default is never
    used; an empty parse raises [IndexError]; a parser error propagates. *)
Theorem mws_xml_to_dict_root
    (xmltodict_parse : string -> string -> bool -> sum xml_exn (dict PyVal))
    (data encoding : string) (force_cdata : bool) :
  (forall v, mws_xml_to_dict xmltodict_parse data encoding force_cdata = inr v <->
     exists k r, xmltodict_parse (remove_xml_namespaces data) encoding force_cdata
                 = inr ((k, v) :: r)) /\
  (xmltodict_parse (remove_xml_namespaces data) encoding force_cdata = inr [] ->
   mws_xml_to_dict xmltodict_parse data encoding force_cdata
   = inl (IndexError "list index out of range")) /\
  (forall e, xmltodict_parse (remove_xml_namespaces data) encoding force_cdata = inl e ->
   mws_xml_to_dict xmltodict_parse data encoding force_cdata = inl e).
Proof.
  unfold mws_xml_to_dict; cbv zeta.
  destruct (xmltodict_parse (remove_xml_namespaces data) encoding force_cdata)
    as [e|[|[k v0] r]].
  - split; [|split; [discriminate|intros e' H; injection H as ->; reflexivity]].
    intros v; split; [discriminate|intros [k [r H]]; discriminate H].
  - split; [|split; [reflexivity|discriminate]].
    intros v; split; [discriminate|intros [k [r H]]; discriminate H].
  - split; [|split; discriminate].
    intros v; cbn [dict_keys map fst py_get dict_get]; rewrite String.eqb_refl; cbn.
    split.
    + intros H; injection H as <-; exists k, r; reflexivity.
    + intros [k' [r' H]]; injection H as -> <- ->; reflexivity.
Qed.

Lemma mws_xml_to_dict_root_witness :
  mws_xml_to_dict (fun _ _ _ => inr []) "<a/>" MWS_ENCODING false
  = inl (IndexError "list index out of range").
Proof.
  apply (proj1 (proj2 (mws_xml_to_dict_root (fun _ _ _ => inr []) "<a/>" MWS_ENCODING false))).
  reflexivity.
Defined.

(** [mws_xml_to_dotdict] wraps the root value when no (or an empty) result
    key is given; with a result key it wraps the entry under that key when
    the root value is a dict, the whole root value when the key is absent,
    and raises [AttributeError] when the root value is not a dict (a root
    element holding only text, or an empty one). *)
Theorem mws_xml_to_dotdict_narrowing
    (xmltodict_parse : string -> string -> bool -> sum xml_exn (dict PyVal))
    (DotDictT : Type) (DotDict : PyVal -> DotDictT)
    (data : string) (force_cdata : bool) (x : PyVal) :
  mws_xml_to_dict xmltodict_parse data MWS_ENCODING force_cdata = inr x ->
  (mws_xml_to_dotdict xmltodict_parse DotDictT DotDict data None force_cdata
   = inr (DotDict x) /\
   mws_xml_to_dotdict xmltodict_parse DotDictT DotDict data (Some EmptyString) force_cdata
   = inr (DotDict x)) /\
  (forall k kvs, k <> EmptyString -> x = VDict kvs ->
   mws_xml_to_dotdict xmltodict_parse DotDictT DotDict data (Some k) force_cdata
   = inr (DotDict (match dict_get kvs k with Some v => v | None => x end))) /\
  (forall k, k <> EmptyString -> (forall kvs, x <> VDict kvs) ->
   mws_xml_to_dotdict xmltodict_parse DotDictT DotDict data (Some k) force_cdata
   = inl (AttributeError ("'" ++ type_name x ++ "' object has no attribute 'get'"))).
Proof.
  intros Hx; unfold mws_xml_to_dotdict; rewrite Hx.
  split; [split; reflexivity|split].
  - intros k kvs Hk ->; unfold truthy; apply String.eqb_neq in Hk; rewrite Hk; cbn.
    destruct (dict_get kvs k); reflexivity.
  - intros k Hk Hnd; unfold truthy; apply String.eqb_neq in Hk; rewrite Hk; cbn [negb].
    destruct x; try reflexivity.
    exfalso; eapply Hnd; reflexivity.
Qed.

Lemma mws_xml_to_dotdict_narrowing_witness :
  mws_xml_to_dotdict (fun _ _ _ => inr [("Response", VStr "text")]) PyVal (fun v => v)
    "<Response>text</Response>" (Some "ListOrdersResult") false
  = inl (AttributeError "'str' object has no attribute 'get'").
Proof.
  apply (proj2 (proj2 (mws_xml_to_dotdict_narrowing
    (fun _ _ _ => inr [("Response", VStr "text")]) PyVal (fun v => v)
    "<Response>text</Response>" false (VStr "text") eq_refl))).
  - discriminate.
  - intros kvs; discriminate.
Defined.

(* ------------------------------------------------------------------ *)
(** ** [MWS.__init__] on the registry's names *)

(** Construction succeeds for every name of [Marketplaces.__members__]
    (the alias [UK] included): the domain is an [https://] endpoint, the
    version and uri fall back to the class constants when empty, the test
    flag is off and the credentials and proxy are kept. *)
Theorem MWS_init_valid_region (cls : MWSClass) (ak sk acc region u v tok : string)
    (prx : option string) :
  In region Marketplaces_members ->
  exists self,
    MWS_init cls ak sk acc region u v tok prx = inr self /\
    String.prefix "https://" (domain self) = true /\
    version self = (if truthy v then v else VERSION cls) /\
    uri self = (if truthy u then u else URI cls) /\
    _test_request_params self = false /\
    proxy self = prx /\
    (access_key self, secret_key self, account_id self, auth_token self) = (ak, sk, acc, tok).
Proof.
  intros H; cbn in H.
  repeat (destruct H as [<-|H];
          [eexists; split; [reflexivity|]; cbn; repeat split; reflexivity|]).
  destruct H.
Qed.

Lemma MWS_init_valid_region_witness :
  exists self, MWS_init MWS_base "key" "secret" "seller" "UK" EmptyString EmptyString
    EmptyString None = inr self /\ version self = "2009-01-01".
Proof.
  destruct (MWS_init_valid_region MWS_base "key" "secret" "seller" "UK" EmptyString
    EmptyString EmptyString None ltac:(cbn; intuition discriminate))
    as [self [H1 [_ [H3 _]]]].
  exists self; split; [exact H1|exact H3].
Defined.

(* ------------------------------------------------------------------ *)
(** ** Dict lemmas *)

Lemma dict_get_set {V} (d : dict V) (k k' : string) (v : V) :
  dict_get (dict_set d k v) k' = if String.eqb k' k then Some v else dict_get d k'.
Proof.
  induction d as [|[k1 v1] r IH]; cbn [dict_set dict_get]; [reflexivity|].
  destruct (String.eqb_spec k k1) as [->|Hne]; cbn [dict_get].
  - destruct (String.eqb k' k1); reflexivity.
  - destruct (String.eqb_spec k' k1) as [->|Hne'].
    + apply String.eqb_neq in Hne; rewrite String.eqb_sym, Hne; reflexivity.
    + exact IH.
Qed.

Lemma dict_get_none {V} (d : dict V) (k : string) :
  ~ In k (dict_keys d) -> dict_get d k = None.
Proof.
  induction d as [|[k1 v1] r IH]; intros Hn; [reflexivity|].
  cbn [dict_get]; cbn [dict_keys map fst In] in Hn.
  destruct (String.eqb_spec k k1) as [->|_]; [exfalso; apply Hn; left; reflexivity|].
  apply IH; intros H; apply Hn; right; exact H.
Qed.

Lemma dict_get_update {V} (d o : dict V) (k : string) :
  NoDup (dict_keys o) ->
  dict_get (dict_update d o) k =
  match dict_get o k with Some v => Some v | None => dict_get d k end.
Proof.
  revert d; induction o as [|[k1 v1] r IH]; intros d Hnd; [reflexivity|].
  cbn [dict_keys map fst] in Hnd; inversion Hnd as [|? ? Hn Hnd']; subst.
  unfold dict_update; cbn [fold_left fst snd]; fold (dict_update (dict_set d k1 v1) r).
  rewrite IH by exact Hnd'; cbn [dict_get].
  destruct (String.eqb_spec k k1) as [->|Hne].
  - rewrite dict_get_none by exact Hn; rewrite dict_get_set, String.eqb_refl; reflexivity.
  - rewrite dict_get_set; apply String.eqb_neq in Hne; rewrite Hne; reflexivity.
Qed.

Lemma dict_keys_set {V} (d : dict V) (k x : string) (v : V) :
  In x (dict_keys (dict_set d k v)) <-> x = k \/ In x (dict_keys d).
Proof.
  induction d as [|[k1 v1] r IH]; cbn [dict_set dict_keys map fst In].
  - split; [intros [H|[]]; left; symmetry; exact H|intros [H|[]]; left; symmetry; exact H].
  - destruct (String.eqb_spec k k1) as [->|_]; cbn [map fst In].
    + split; [intros [H|H]; [right; left; exact H|right; right; exact H]|].
      intros [H|[H|H]]; [left; symmetry; exact H|left; exact H|right; exact H].
    + unfold dict_keys in IH; rewrite IH; tauto.
Qed.

Lemma dict_set_NoDup {V} (d : dict V) (k : string) (v : V) :
  NoDup (dict_keys d) -> NoDup (dict_keys (dict_set d k v)).
Proof.
  induction d as [|[k1 v1] r IH]; intros Hnd; cbn [dict_set].
  - repeat constructor; intros [].
  - cbn [dict_keys map fst] in Hnd; inversion Hnd as [|? ? Hn Hnd']; subst.
    destruct (String.eqb_spec k k1) as [->|Hne]; cbn [dict_keys map fst];
      constructor; try exact Hnd'; try exact Hn.
    + fold (dict_keys (dict_set r k v)); rewrite dict_keys_set.
      intros [->|H]; [apply Hne; reflexivity|contradiction].
    + apply IH; exact Hnd'.
Qed.

Lemma dict_update_NoDup {V} (d o : dict V) :
  NoDup (dict_keys d) -> NoDup (dict_keys (dict_update d o)).
Proof.
  revert d; induction o as [|[k v] r IH]; intros d Hnd; [exact Hnd|].
  unfold dict_update; cbn [fold_left fst snd]; fold (dict_update (dict_set d k v) r).
  apply IH, dict_set_NoDup, Hnd.
Qed.

Lemma dict_get_filter (f : PyVal -> bool) (l : dict PyVal) (k : string) :
  NoDup (dict_keys l) ->
  dict_get (filter (fun kv => f (snd kv)) l) k =
  match dict_get l k with Some v => if f v then Some v else None | None => None end.
Proof.
  induction l as [|[k1 v1] r IH]; intros Hnd; [reflexivity|].
  cbn [dict_keys map fst] in Hnd; inversion Hnd as [|? ? Hn Hnd']; subst.
  cbn [filter snd dict_get].
  destruct (String.eqb_spec k k1) as [->|Hne].
  - destruct (f v1); cbn [dict_get]; [rewrite String.eqb_refl; reflexivity|].
    rewrite IH, dict_get_none by assumption; reflexivity.
  - destruct (f v1); cbn [dict_get]; [apply String.eqb_neq in Hne; rewrite Hne|]; apply IH, Hnd'.
Qed.

Lemma dict_get_cleaned (cv : PyVal -> sum exn string) (l out : dict PyVal) (k : string) :
  Forall2 (cleaned_entry cv) l out ->
  match dict_get l k with
  | Some v => exists c, cv v = inr c /\ dict_get out k = Some (VStr c)
  | None => dict_get out k = None
  end.
Proof.
  induction 1 as [|[k1 v1] [k2 x] r out' [Hk [c [Hc Hx]]] _ IH]; [reflexivity|].
  cbn in Hk, Hc, Hx; subst k2 x; cbn [dict_get].
  destruct (String.eqb k k1); [exists c; split; [exact Hc|reflexivity]|exact IH].
Qed.

Lemma dict_of_list_NoDup {V} (l : dict V) : NoDup (dict_keys (dict_of_list l)).
Proof. apply dict_update_NoDup; constructor. Qed.

Lemma get_default_params_NoDup (cls : MWSClass) (self : MWS) (ts action : string) :
  NoDup (dict_keys (get_default_params cls self ts action)).
Proof.
  unfold get_default_params; destruct (truthy (auth_token self));
    [apply dict_set_NoDup|]; apply dict_of_list_NoDup.
Qed.

(** What [clean_params] keeps of [params.update(extra_data)]: a key set by
    [extra_data] takes that value, any other key its default; an empty or
    [None] value drops the key; any other value is cleaned. *)
Lemma cleaned_merged_lookup (defaults extra_data cp : dict PyVal) (k : string) :
  NoDup (dict_keys defaults) -> NoDup (dict_keys extra_data) ->
  clean_params clean_param_value (dict_update defaults extra_data) = inr cp ->
  match (match dict_get extra_data k with Some v => Some v | None => dict_get defaults k end) with
  | Some v =>
      if keep_param v then exists c, clean_param_value v = inr c /\ dict_get cp k = Some (VStr c)
      else dict_get cp k = None
  | None => dict_get cp k = None
  end.
Proof.
  intros Hd He Hc.
  pose proof (dict_update_NoDup defaults extra_data Hd) as Hm.
  pose proof (NoDup_filter_keys (fun kv => keep_param (snd kv)) _ Hm) as Hf.
  unfold clean_params in Hc.
  apply (clean_loop_ok clean_param_value _ [] cp Hf) in Hc as [out' [Hcp H2]].
  cbn [app] in Hcp; subst out'.
  pose proof (dict_get_cleaned clean_param_value _ _ k H2) as Hg.
  rewrite dict_get_filter in Hg by exact Hm.
  rewrite dict_get_update in Hg by exact He.
  destruct (match dict_get extra_data k with Some v => Some v | None => dict_get defaults k end)
    as [v|]; [|exact Hg].
  destruct (keep_param v); exact Hg.
Qed.

Lemma truthy_ByNextToken (a : string) : truthy (a ++ "ByNextToken") = true.
Proof. destruct a; reflexivity. Qed.

(* ------------------------------------------------------------------ *)
(** ** [make_request] *)

Section MakeRequestProofs.
Variable utc_timestamp : string.
Variable hmac_sha256 : list byte -> list byte -> list byte.
Variable b64encode : list byte -> list byte.
Variable request : HttpRequest -> HttpResponse.
Variable Parsed : Type.
Variable DictWrapper : Body -> string -> sum exn Parsed.
Variable DataWrapper : list byte -> dict string -> sum exn Parsed.

Let make_request' := make_request utc_timestamp hmac_sha256 b64encode request Parsed
  DictWrapper DataWrapper.

(** In test mode [make_request] sends nothing and never returns a parsed
    response; the parameters it returns hold, for each key, the cleaned
    value [extra_data] gives it or else the cleaned default, and no entry
    for a key whose value is [None] or empty (so [extra_data] can override
    or drop a default parameter). *)
Theorem make_request_test_mode (cls : MWSClass) (self : MWS) (action : string)
    (extra_data : dict PyVal) (method : string) (kwargs : Kwargs) :
  _test_request_params self = true -> NoDup (dict_keys extra_data) ->
  sent (make_request' cls self action extra_data method kwargs) = None /\
  (forall p resp, ret (make_request' cls self action extra_data method kwargs)
                  <> inr (RParsed p resp)) /\
  (forall cp, ret (make_request' cls self action extra_data method kwargs) = inr (RParams cp) ->
   forall k,
   match (match dict_get extra_data k with
          | Some v => Some v
          | None => dict_get (get_default_params cls self utc_timestamp action) k
          end) with
   | Some v =>
       if keep_param v then exists c, clean_param_value v = inr c /\ dict_get cp k = Some (VStr c)
       else dict_get cp k = None
   | None => dict_get cp k = None
   end).
Proof.
  intros Ht He; unfold make_request', make_request; cbv zeta.
  destruct (clean_params clean_param_value
              (dict_update (get_default_params cls self utc_timestamp action) extra_data))
    as [e|cp] eqn:Hc.
  - split; [reflexivity|split; [intros p resp; discriminate|intros cp H; discriminate H]].
  - rewrite Ht; cbn [sent ret].
    split; [reflexivity|split; [intros p resp; discriminate|]].
    intros cp' H k; injection H as <-.
    apply cleaned_merged_lookup; [apply get_default_params_NoDup|exact He|exact Hc].
Qed.

(** A request [make_request] sends carries exactly the parameters the same
    call returns in test mode: its URL is the domain, the uri, [?], their
    description and [&Signature=] with the quoted signature of that very
    description; the method is the given one, the body defaults to empty,
    the timeout to 300 seconds, and the proxies are [get_proxies()]. *)
Theorem make_request_sent_request (cls : MWSClass) (self : MWS) (action : string)
    (extra_data : dict PyVal) (method : string) (kwargs : Kwargs) (r : HttpRequest) :
  sent (make_request' cls self action extra_data method kwargs) = Some r ->
  exists cp,
    ret (make_request' cls (set_test_request_params self true) action extra_data method kwargs)
    = inr (RParams cp) /\
    req_url r = domain self ++ uri self ++ "?" ++ calc_request_description cp ++ "&Signature="
                ++ quote_bytes "/" (calc_signature hmac_sha256 b64encode self method
                                      (calc_request_description cp)) /\
    req_method r = method /\
    req_data r = get_or (body kwargs) EmptyString /\
    req_timeout r = get_or (timeout kwargs) 300%Z /\
    req_proxies r = get_proxies self.
Proof.
  unfold make_request', make_request; cbv zeta.
  change (get_default_params cls (set_test_request_params self true) utc_timestamp action)
    with (get_default_params cls self utc_timestamp action).
  destruct (clean_params clean_param_value
              (dict_update (get_default_params cls self utc_timestamp action) extra_data))
    as [e|cp]; [discriminate|].
  destruct (_test_request_params self); [discriminate|].
  cbn [sent]; intros H; injection H as <-.
  exists cp; repeat split.
Qed.

(** The headers of a sent request: each extra header as given, and
    [User-Agent: python-amazon-mws/1.0.0dev14 (Language=Python)] unless an
    extra header replaces it. *)
Theorem make_request_headers (cls : MWSClass) (self : MWS) (action : string)
    (extra_data : dict PyVal) (method : string) (kwargs : Kwargs) (r : HttpRequest)
    (k : string) :
  NoDup (dict_keys (get_or (extra_headers kwargs) [])) ->
  sent (make_request' cls self action extra_data method kwargs) = Some r ->
  dict_get (req_headers r) k =
  match dict_get (get_or (extra_headers kwargs) []) k with
  | Some h => Some h
  | None =>
      if String.eqb k "User-Agent" then Some "python-amazon-mws/1.0.0dev14 (Language=Python)"
      else None
  end.
Proof.
  intros Hnd; unfold make_request', make_request; cbv zeta.
  destruct (clean_params _ _) as [e|cp]; [discriminate|].
  destruct (_test_request_params self); [discriminate|].
  cbn [sent]; intros H; injection H as <-; cbn [req_headers].
  rewrite dict_get_update by exact Hnd.
  reflexivity.
Qed.

(** An HTTP status from 400 to 599 becomes [MWSError] carrying the
    response text and the response, whatever the parsers and result key. *)
Theorem make_request_http_error (cls : MWSClass) (self : MWS) (action : string)
    (extra_data : dict PyVal) (method : string) (kwargs : Kwargs) (r : HttpRequest) :
  sent (make_request' cls self action extra_data method kwargs) = Some r ->
  (400 <= status_code (request r) < 600)%Z ->
  ret (make_request' cls self action extra_data method kwargs)
  = inl (MWSError (text (request r)) (Some (request r))).
Proof.
  unfold make_request', make_request; cbv zeta.
  destruct (clean_params _ _) as [e|cp]; [discriminate|].
  destruct (_test_request_params self); [discriminate|].
  match goal with |- context [request ?q] => set (rq := q) end.
  intros H Hs; injection H as Hr; subst r.
  assert (Hb : raise_for_status (request rq) = inl (HTTPError (request rq))).
  { unfold raise_for_status.
    replace ((400 <=? status_code (request rq)) && (status_code (request rq) <? 600))%Z
      with true; [reflexivity|].
    symmetry; apply andb_true_intro; split; [apply Z.leb_le|apply Z.ltb_lt]; lia. }
  cbn [ret]; rewrite Hb; reflexivity.
Qed.

(** Where a result of [make_request] comes from: cleaned parameters only in
    test mode and with nothing sent; a parsed response only after a request
    was sent and answered with a status outside 400..599, the response
    attached being that answer and the parsed value coming from
    [DictWrapper] on the bytes or on the text, or from [DataWrapper], with
    the result key [result_key] or else the [Action] of [extra_data] with
    [Result] appended. *)
Theorem make_request_result_origin (cls : MWSClass) (self : MWS) (action : string)
    (extra_data : dict PyVal) (method : string) (kwargs : Kwargs) :
  (forall cp, ret (make_request' cls self action extra_data method kwargs) = inr (RParams cp) ->
   _test_request_params self = true /\
   sent (make_request' cls self action extra_data method kwargs) = None) /\
  (forall p resp,
   ret (make_request' cls self action extra_data method kwargs) = inr (RParsed p resp) ->
   exists r a,
     sent (make_request' cls self action extra_data method kwargs) = Some r /\
     resp = request r /\
     (status_code resp < 400 \/ 600 <= status_code resp)%Z /\
     dict_get extra_data "Action" = Some (VStr a) /\
     (DictWrapper (BBytes (content resp)) (get_or (result_key kwargs) (a ++ "Result")) = inr p \/
      DictWrapper (BText (text resp)) (get_or (result_key kwargs) (a ++ "Result")) = inr p \/
      DataWrapper (content resp) (resp_headers resp) = inr p)).
Proof.
  unfold make_request', make_request; cbv zeta.
  destruct (clean_params _ _) as [e|cp]; [split; discriminate|].
  destruct (_test_request_params self) eqn:Ht.
  { split; [intros cp' _; split; reflexivity|intros p resp H; discriminate H]. }
  cbn [sent ret].
  match goal with |- context [request ?q] => set (rq := q) end.
  split.
  { intros cp' H; exfalso; revert H.
    unfold catch_HTTPError.
    destruct (raise_for_status (request rq)) as [e|]; [destruct e; discriminate|].
    destruct (add_Result (dict_get extra_data "Action")) as [e|dk];
      [destruct e; discriminate|].
    destruct (parse_response _ _ _); [|discriminate].
    match goal with |- context [match ?e with _ => _ end] => destruct e end; discriminate. }
  intros p resp H.
  destruct (raise_for_status (request rq)) as [e|] eqn:Hr;
    [unfold catch_HTTPError in H; destruct e; discriminate H|].
  destruct (dict_get extra_data "Action") as [[| | |a| |]|] eqn:Ha;
    cbn [add_Result] in H; try (unfold catch_HTTPError in H; discriminate H).
  destruct (parse_response _ _ _) as [e|p'] eqn:Hp;
    [unfold catch_HTTPError in H; destruct e; discriminate H|].
  unfold catch_HTTPError in H; injection H as <- <-.
  exists rq, a; split; [reflexivity|split; [reflexivity|split]].
  - unfold raise_for_status in Hr.
    destruct (((400 <=? status_code (request rq)) && (status_code (request rq) <? 600))%Z) eqn:Hb;
      [discriminate|].
    apply andb_false_iff in Hb as [Hb|Hb]; [apply Z.leb_gt in Hb|apply Z.ltb_ge in Hb]; lia.
  - split; [reflexivity|].
    unfold parse_response in Hp.
    destruct (DictWrapper (BBytes (content (request rq))) _) as [[]|] eqn:H1;
      try discriminate Hp;
      [destruct (DictWrapper (BText (text (request rq))) _) as [[]|] eqn:H2;
         try discriminate Hp| |];
      first [left; congruence | right; left; congruence | right; right; congruence].
Qed.
End MakeRequestProofs.

Lemma default_params_Action (cls : MWSClass) (self : MWS) (ts action : string) :
  ACCOUNT_TYPE cls <> "Action" ->
  dict_get (get_default_params cls self ts action) "Action" = Some (VStr action).
Proof.
  intros Hne; unfold get_default_params, dict_of_list, dict_update; cbn [fold_left fst snd].
  assert (He : String.eqb "Action" (ACCOUNT_TYPE cls) = false)
    by (apply String.eqb_neq; intros H; apply Hne; symmetry; exact H).
  destruct (truthy (auth_token self)); repeat rewrite dict_get_set; rewrite He; reflexivity.
Qed.

Section NextTokenProofs.
Variable utc_timestamp : string.
Variable hmac_sha256 : list byte -> list byte -> list byte.
Variable b64encode : list byte -> list byte.
Variable request : HttpRequest -> HttpResponse.
Variable Parsed : Type.
Variable DictWrapper : Body -> string -> sum exn Parsed.
Variable DataWrapper : list byte -> dict string -> sum exn Parsed.

(** In test mode, for a next-token operation, [action_by_next_token]
    returns parameters whose [Action] is the quoted action name with
    [ByNextToken] appended and whose [NextToken] is the cleaned token (absent
    when the token is [None] or empty); this needs an account-type field
    other than [Action]. *)
Theorem action_by_next_token_test_params (cls : MWSClass) (self : MWS) (action : string)
    (next_token : PyVal) (cp : dict PyVal) :
  In action (NEXT_TOKEN_OPERATIONS cls) -> ACCOUNT_TYPE cls <> "Action" ->
  _test_request_params self = true ->
  ret (action_by_next_token utc_timestamp hmac_sha256 b64encode request Parsed DictWrapper
         DataWrapper cls self action next_token) = inr (RParams cp) ->
  dict_get cp "Action" = Some (VStr (quote "-_.~" (action ++ "ByNextToken"))) /\
  (keep_param next_token = true ->
   exists c, clean_param_value next_token = inr c /\ dict_get cp "NextToken" = Some (VStr c)) /\
  (keep_param next_token = false -> dict_get cp "NextToken" = None).
Proof.
  intros Hin Hne Ht.
  assert (He : existsb (String.eqb action) (NEXT_TOKEN_OPERATIONS cls) = true)
    by (apply existsb_exists; exists action; split; [exact Hin|apply String.eqb_refl]).
  unfold action_by_next_token; rewrite He; cbn [negb]; cbv zeta.
  unfold make_request; cbv zeta.
  destruct (clean_params clean_param_value
              (dict_update (get_default_params cls self utc_timestamp (action ++ "ByNextToken"))
                 [("NextToken", next_token)])) as [e|cp'] eqn:Hc; [discriminate|].
  rewrite Ht; cbn [ret]; intros H; injection H as <-.
  assert (Hnd1 := get_default_params_NoDup cls self utc_timestamp (action ++ "ByNextToken")).
  assert (Hnd2 : NoDup (dict_keys [("NextToken", next_token)])) by (repeat constructor; intros []).
  pose proof (cleaned_merged_lookup _ _ _ "Action" Hnd1 Hnd2 Hc) as HA.
  pose proof (cleaned_merged_lookup _ _ _ "NextToken" Hnd1 Hnd2 Hc) as HN.
  cbn [dict_get String.eqb Ascii.eqb Bool.eqb andb] in HA, HN.
  rewrite default_params_Action in HA by exact Hne.
  cbn [keep_param] in HA; rewrite truthy_ByNextToken in HA.
  destruct HA as [c [Hc1 Hc2]]; cbn in Hc1; injection Hc1 as <-.
  split; [exact Hc2|].
  split; intros Hk; rewrite Hk in HN; exact HN.
Qed.
End NextTokenProofs.

(* ------------------------------------------------------------------ *)
(** ** Reading the request description back *)

Lemma split_on_free (sep : ascii) (w : string) :
  ~ In sep (list_ascii_of_string w) -> split_on sep w = [w].
Proof.
  induction w as [|c w IH]; intros Hn; [reflexivity|].
  cbn [split_on]; cbn [list_ascii_of_string In] in Hn.
  destruct (Ascii.eqb_spec c sep) as [->|_]; [exfalso; apply Hn; left; reflexivity|].
  rewrite IH by tauto; reflexivity.
Qed.

Lemma split_on_app (sep : ascii) (w rest : string) :
  ~ In sep (list_ascii_of_string w) ->
  split_on sep (w ++ String sep rest) = w :: split_on sep rest.
Proof.
  induction w as [|c w IH]; intros Hn; cbn [append split_on].
  - rewrite Ascii.eqb_refl; reflexivity.
  - cbn [list_ascii_of_string In] in Hn.
    destruct (Ascii.eqb_spec c sep) as [->|_]; [exfalso; apply Hn; left; reflexivity|].
    rewrite IH by tauto; reflexivity.
Qed.

Lemma split_on_concat (sep : ascii) (x : string) (xs : list string) :
  Forall (fun w => ~ In sep (list_ascii_of_string w)) (x :: xs) ->
  split_on sep (String.concat (String sep EmptyString) (x :: xs)) = x :: xs.
Proof.
  revert x; induction xs as [|y ys IH]; intros x Hf; inversion Hf as [|? ? Hx Hr]; subst.
  - apply split_on_free; exact Hx.
  - change (String.concat (String sep EmptyString) (x :: y :: ys))
      with (x ++ String sep EmptyString ++ String.concat (String sep EmptyString) (y :: ys)).
    cbn [append]; rewrite split_on_app by exact Hx.
    rewrite IH by exact Hr; reflexivity.
Qed.

Lemma split_pair_app (k v : string) :
  ~ In "="%char (list_ascii_of_string k) -> split_pair (k ++ String "="%char v) = (k, v).
Proof.
  induction k as [|c k IH]; intros Hn; [reflexivity|].
  cbn [append split_pair]; cbn [list_ascii_of_string In] in Hn.
  destruct (Ascii.eqb_spec c "="%char) as [->|_]; [exfalso; apply Hn; left; reflexivity|].
  rewrite IH by tauto; reflexivity.
Qed.

Lemma list_ascii_of_string_append (a b : string) :
  list_ascii_of_string (a ++ b) = app (list_ascii_of_string a) (list_ascii_of_string b).
Proof. induction a as [|c a IH]; [reflexivity|cbn; rewrite IH; reflexivity]. Qed.

Lemma map_str_values (l : dict PyVal) :
  NoDup (dict_keys l) -> Forall (fun kv => exists s, snd kv = VStr s) l ->
  map (fun k => (k, VStr (match dict_get l k with Some v => py_str v | None => EmptyString end)))
      (dict_keys l) = l.
Proof.
  induction l as [|[k v] r IH]; intros Hnd Hf; [reflexivity|].
  cbn [dict_keys map fst] in Hnd; inversion Hnd as [|? ? Hn Hnd']; subst.
  inversion Hf as [|? ? [s Hs] Hr]; subst; cbn in Hs; subst v.
  cbn [dict_keys map fst dict_get]; rewrite String.eqb_refl; cbn [py_str].
  f_equal; rewrite <- (IH Hnd' Hr) at 2.
  apply map_ext_in; intros k' Hk'.
  destruct (String.eqb_spec k' k) as [->|_]; [contradiction|reflexivity].
Qed.

(** A description read back with [&] and [=] gives the dict again, its keys
    in ascending order, provided no key holds [&] or [=], every value is a
    string and none holds [&] (as for cleaned, percent-encoded values). *)
Theorem calc_request_description_round_trip (params : dict PyVal) :
  NoDup (dict_keys params) ->
  Forall (fun kv => no_sep (fst kv) /\
                    exists s, snd kv = VStr s /\ ~ In "&"%char (list_ascii_of_string s)) params ->
  Permutation (map (fun kv => (fst kv, VStr (snd kv)))
                   (parse_description (calc_request_description params))) params /\
  StronglySorted (fun a b => String.ltb a b = true)
                 (map fst (parse_description (calc_request_description params))).
Proof.
  intros Hnd Hf.
  set (g := fun k => match dict_get params k with Some v => py_str v | None => EmptyString end).
  assert (Hitem : forall k, In k (dict_keys params) ->
            description_item params k = k ++ "=" ++ g k /\
            no_sep k /\ ~ In "&"%char (list_ascii_of_string (g k))).
  { intros k Hk; unfold dict_keys in Hk; apply in_map_iff in Hk as [[k' v] [Hk' Hin]].
    cbn in Hk'; subst k'.
    pose proof (dict_get_NoDup params k v Hnd Hin) as Hg.
    rewrite Forall_forall in Hf; destruct (Hf _ Hin) as [Hk [s [Hv Hs]]]; cbn in Hk, Hv; subst v.
    unfold description_item, g; rewrite Hg; cbn [py_str]; auto. }
  assert (Hparse : parse_description (calc_request_description params)
                   = map (fun k => (k, g k)) (sorted (dict_keys params))).
  { unfold calc_request_description.
    assert (Hin : forall k, In k (sorted (dict_keys params)) -> In k (dict_keys params))
      by (intros k; apply Permutation_in, sorted_perm).
    destruct (sorted (dict_keys params)) as [|k0 ks] eqn:Hs; [reflexivity|].
    rewrite (map_ext_in _ (fun k => k ++ "=" ++ g k) (k0 :: ks))
      by (intros k Hk; apply Hitem, Hin, Hk).
    unfold parse_description.
    replace (String.eqb (String.concat "&" (map (fun k => k ++ "=" ++ g k) (k0 :: ks)))
               EmptyString) with false.
    2:{ cbn [map]; destruct ks; destruct k0; reflexivity. }
    change "&" with (String "&"%char EmptyString).
    cbn [map]; rewrite split_on_concat.
    - cbn [map]; f_equal.
      + apply split_pair_app, (Hitem k0 (Hin k0 (or_introl eq_refl))).
      + rewrite map_map; apply map_ext_in; intros k Hk.
        apply split_pair_app, (Hitem k (Hin k (or_intror Hk))).
    - constructor.
      + destruct (Hitem k0 (Hin k0 (or_introl eq_refl))) as [_ [[Ha _] Hv]].
        intros H; rewrite list_ascii_of_string_append in H; apply in_app_iff in H as [H|H];
          [contradiction|destruct H as [H|H]; [discriminate H|contradiction]].
      + apply Forall_forall; intros w Hw; apply in_map_iff in Hw as [k [<- Hk]].
        destruct (Hitem k (Hin k (or_intror Hk))) as [_ [[Ha _] Hv]].
        intros H; rewrite list_ascii_of_string_append in H; apply in_app_iff in H as [H|H];
          [contradiction|destruct H as [H|H]; [discriminate H|contradiction]]. }
  rewrite Hparse; split.
  - rewrite map_map; cbn [fst snd].
    rewrite <- (map_str_values params Hnd) at 2.
    + apply Permutation_map, sorted_perm.
    + eapply Forall_impl; [|exact Hf]; intros kv [_ [s [Hs _]]]; exists s; exact Hs.
  - rewrite map_map; cbn [fst]; rewrite map_id.
    apply StronglySorted_strict; [apply sorted_StronglySorted|].
    apply (Permutation_NoDup (Permutation_sym (sorted_perm _))); exact Hnd.
Qed.

Lemma calc_request_description_round_trip_witness :
  parse_description (calc_request_description
    [("Version", VStr "2013-09-01"); ("Action", VStr "ListOrders")])
  = [("Action", "ListOrders"); ("Version", "2013-09-01")] /\
  StronglySorted (fun a b => String.ltb a b = true) ["Action"; "Version"].
Proof.
  split; [reflexivity|].
  refine (eq_ind _ (fun l => StronglySorted _ l)
    (proj2 (calc_request_description_round_trip
       [("Version", VStr "2013-09-01"); ("Action", VStr "ListOrders")] _ _)) _ eq_refl).
  - cbn; repeat constructor; cbn; intuition discriminate.
  - repeat constructor; cbn; try (intuition discriminate);
      eexists; (split; [reflexivity|cbn; intuition discriminate]).
Defined.

(* ------------------------------------------------------------------ *)
(** ** Witnesses for the [make_request] properties, on the sample client *)

Lemma make_request_test_mode_witness :
  match ret (make_request "2020-01-01T00:00:00Z" (fun _ m => m) (fun b => b) sample_request
               string sample_DictWrapper sample_DataWrapper sample_api
               (set_test_request_params sample_client true) "ListOrders"
               [("Version", VStr EmptyString)] "GET" no_kwargs) with
  | inr (RParams cp) => dict_get cp "Version" = None
  | _ => False
  end.
Proof.
  destruct (ret (make_request "2020-01-01T00:00:00Z" (fun _ m => m) (fun b => b) sample_request
               string sample_DictWrapper sample_DataWrapper sample_api
               (set_test_request_params sample_client true) "ListOrders"
               [("Version", VStr EmptyString)] "GET" no_kwargs)) as [e|[cp|p resp]] eqn:E;
    try (vm_compute in E; discriminate E).
  pose proof (proj2 (proj2 (make_request_test_mode "2020-01-01T00:00:00Z" (fun _ m => m)
    (fun b => b) sample_request string sample_DictWrapper sample_DataWrapper sample_api
    (set_test_request_params sample_client true) "ListOrders" [("Version", VStr EmptyString)]
    "GET" no_kwargs eq_refl ltac:(repeat constructor; intros [])))) as T.
  generalize (T cp E "Version"); generalize (dict_get cp "Version").
  intros o H; vm_compute in H; exact H.
Defined.

Lemma make_request_sent_request_witness :
  match sent (make_request "2020-01-01T00:00:00Z" (fun _ m => m) (fun b => b) sample_request
                string sample_DictWrapper sample_DataWrapper sample_api sample_client
                "ListOrders" [] "GET" no_kwargs) with
  | Some r => req_timeout r = 300%Z /\ req_method r = "GET"
  | None => False
  end.
Proof.
  destruct (sent (make_request "2020-01-01T00:00:00Z" (fun _ m => m) (fun b => b)
                    sample_request string sample_DictWrapper sample_DataWrapper sample_api
                    sample_client "ListOrders" [] "GET" no_kwargs)) as [r|] eqn:E;
    [|vm_compute in E; discriminate E].
  destruct (make_request_sent_request "2020-01-01T00:00:00Z" (fun _ m => m) (fun b => b)
    sample_request string sample_DictWrapper sample_DataWrapper sample_api sample_client
    "ListOrders" [] "GET" no_kwargs r E) as [cp [_ [_ [Hm [_ [Ht _]]]]]].
  split; [exact Ht|exact Hm].
Defined.

Lemma make_request_headers_witness :
  match sent (make_request "2020-01-01T00:00:00Z" (fun _ m => m) (fun b => b) sample_request
                string sample_DictWrapper sample_DataWrapper sample_api sample_client
                "ListOrders" [] "GET"
                {| extra_headers := Some [("Content-Type", "text/xml")]; body := None;
                   timeout := None; result_key := None |}) with
  | Some r => dict_get (req_headers r) "User-Agent"
              = Some "python-amazon-mws/1.0.0dev14 (Language=Python)"
  | None => False
  end.
Proof.
  destruct (sent (make_request "2020-01-01T00:00:00Z" (fun _ m => m) (fun b => b)
                    sample_request string sample_DictWrapper sample_DataWrapper sample_api
                    sample_client "ListOrders" [] "GET"
                    {| extra_headers := Some [("Content-Type", "text/xml")]; body := None;
                       timeout := None; result_key := None |})) as [r|] eqn:E;
    [|vm_compute in E; discriminate E].
  exact (make_request_headers "2020-01-01T00:00:00Z" (fun _ m => m) (fun b => b)
    sample_request string sample_DictWrapper sample_DataWrapper sample_api sample_client
    "ListOrders" [] "GET"
    {| extra_headers := Some [("Content-Type", "text/xml")]; body := None;
       timeout := None; result_key := None |} r "User-Agent"
    ltac:(repeat constructor; intros []) E).
Defined.

Lemma make_request_http_error_witness :
  ret (make_request "2020-01-01T00:00:00Z" (fun _ m => m) (fun b => b) sample_error_request
         string sample_DictWrapper sample_DataWrapper sample_api sample_client
         "ListOrders" [("Action", VStr "ListOrders")] "GET" no_kwargs)
  = inl (MWSError "Service Unavailable" (Some sample_error_response)).
Proof.
  destruct (sent (make_request "2020-01-01T00:00:00Z" (fun _ m => m) (fun b => b)
                    sample_error_request string sample_DictWrapper sample_DataWrapper
                    sample_api sample_client "ListOrders" [("Action", VStr "ListOrders")]
                    "GET" no_kwargs)) as [r|] eqn:E;
    [|vm_compute in E; discriminate E].
  exact (make_request_http_error "2020-01-01T00:00:00Z" (fun _ m => m) (fun b => b)
    sample_error_request string sample_DictWrapper sample_DataWrapper sample_api
    sample_client "ListOrders" [("Action", VStr "ListOrders")] "GET" no_kwargs r E
    ltac:(cbn; lia)).
Defined.

Lemma make_request_result_origin_witness :
  exists r, sent (make_request "2020-01-01T00:00:00Z" (fun _ m => m) (fun b => b)
                    sample_request string sample_DictWrapper sample_DataWrapper sample_api
                    sample_client "ListOrders" [("Action", VStr "ListOrders")] "GET"
                    no_kwargs) = Some r /\ sample_response = sample_request r.
Proof.
  destruct (proj2 (make_request_result_origin "2020-01-01T00:00:00Z" (fun _ m => m)
    (fun b => b) sample_request string sample_DictWrapper sample_DataWrapper sample_api
    sample_client "ListOrders" [("Action", VStr "ListOrders")] "GET" no_kwargs)
    "ListOrdersResult" sample_response ltac:(vm_compute; reflexivity))
    as [r [a [Hs [Hr _]]]].
  exists r; split; [exact Hs|exact Hr].
Defined.

Lemma action_by_next_token_test_params_witness :
  match ret (action_by_next_token "2020-01-01T00:00:00Z" (fun _ m => m) (fun b => b)
               sample_request string sample_DictWrapper sample_DataWrapper sample_api
               (set_test_request_params sample_client true) "ListOrders" (VStr "abc")) with
  | inr (RParams cp) => dict_get cp "Action" = Some (VStr "ListOrdersByNextToken")
  | _ => False
  end.
Proof.
  destruct (ret (action_by_next_token "2020-01-01T00:00:00Z" (fun _ m => m) (fun b => b)
               sample_request string sample_DictWrapper sample_DataWrapper sample_api
               (set_test_request_params sample_client true) "ListOrders" (VStr "abc")))
    as [e|[cp|p resp]] eqn:E; try (vm_compute in E; discriminate E).
  exact (proj1 (action_by_next_token_test_params "2020-01-01T00:00:00Z" (fun _ m => m)
    (fun b => b) sample_request string sample_DictWrapper sample_DataWrapper sample_api
    (set_test_request_params sample_client true) "ListOrders" (VStr "abc") cp
    ltac:(cbn; tauto) ltac:(discriminate) eq_refl E)).
Defined.
